(** * The record store and notification generator of the task-management app

    A shallow embedding of [src/contexts/DataContext.tsx]: the collections the
    [DataProvider] component holds in React state, the mutation operations it
    hands to its consumers, the notification generator and the overdue scan.

    Conventions of the embedding.
    - A JavaScript string is a [string]; [length] and [substring] count its
      characters the way JavaScript counts code units.
    - A [Date] is the number of milliseconds since the epoch, a [Z].  An
      operation receives the reading of the clock as its argument [now];
      every [Date.now()] and [new Date()] of one call reads that value.
    - An optional property ([x?: T], or a key of a [Partial<T>]) is an
      [option]; [None] is the missing key.  A key present with the value
      [undefined] is not told apart from a missing key.
    - A status, a priority and a notification type are the members of their
      union types; the other strings are arbitrary.
    - A component function closes over the collections of the render that
      created it and writes through functional updaters
      ([setTasks(prev => ...)]).  Every operation therefore takes two stores:
      [snap], the collections of the closure, which it reads, and [cur], the
      pending state, which its updaters transform.  A call made from a fresh
      render has [snap = cur]. *)

From Stdlib Require Import ZArith List String Ascii Bool Lia QArith.
From Stdlib Require Import DecimalString.
Import ListNotations.

Local Open Scope string_scope.
Local Open Scope Z_scope.

(** ** The JavaScript primitives the module uses *)

Module JS.

(** Truthiness of a string: only the empty string is falsy. *)
Definition truthy (s : string) : bool :=
  match s with
  | EmptyString => false
  | String _ _ => true
  end.

(** [s || d] on strings. *)
Definition orElse (s d : string) : string :=
  if truthy s then s else d.

(** [o?.name || d]: the property of an object that may be missing, with a
    fallback for a missing object and for an empty name. *)
Definition nameOr {A : Type} (name : A -> string) (o : option A) (d : string)
  : string :=
  match o with
  | Some a => orElse (name a) d
  | None => d
  end.

(** [\d] *)
Definition isDigit (c : ascii) : bool :=
  ((48 <=? N_of_ascii c) && (N_of_ascii c <=? 57))%N.

Definition digitValue (c : ascii) : Z :=
  Z.of_N (N_of_ascii c) - 48.

(** [/^T\d{3}$/.test(s)] *)
Definition test_T3 (s : string) : bool :=
  match s with
  | String t (String a (String b (String c EmptyString))) =>
      Ascii.eqb t "T" && isDigit a && isDigit b && isDigit c
  | _ => false
  end.

(** [s.substring(1)] *)
Definition substringFrom1 (s : string) : string :=
  match s with
  | EmptyString => EmptyString
  | String _ r => r
  end.

(** The decimal digits at the head of [s], read left to right into [acc]. *)
Fixpoint parseDigits (acc : Z) (s : string) : Z :=
  match s with
  | String c r => if isDigit c then parseDigits (10 * acc + digitValue c) r
                  else acc
  | EmptyString => acc
  end.

(** [parseInt(s)] on a string without sign, blank or radix prefix: the
    number written by the leading decimal digits, [None] (NaN) when there
    is none. *)
Definition parseInt (s : string) : option Z :=
  match s with
  | String c _ => if isDigit c then Some (parseDigits 0 s) else None
  | EmptyString => None
  end.

(** [Math.max(...l)] of a list known to be non-empty, [d] standing in for
    the value of the empty spread, which no caller reaches. *)
Definition max_list (d : Z) (l : list Z) : Z :=
  match l with
  | [] => d
  | x :: r => fold_left Z.max r x
  end.

(** [n.toString()] of an integer. *)
Definition toString (n : Z) : string :=
  NilZero.string_of_int (Z.to_int n).

Fixpoint repeatChar (c : ascii) (n : nat) : string :=
  match n with
  | O => EmptyString
  | S k => String c (repeatChar c k)
  end.

(** [s.padStart(len, c)] with a one-character filler. *)
Definition padStart (len : nat) (c : ascii) (s : string) : string :=
  repeatChar c (len - String.length s) ++ s.

(** [s.substring(0, n)] *)
Definition substring0 (n : nat) (s : string) : string :=
  String.substring 0 n s.

(** [s.includes(sub)] *)
Fixpoint includes (s sub : string) : bool :=
  String.prefix sub s ||
  match s with
  | EmptyString => false
  | String _ r => includes r sub
  end.

Fixpoint dropChars (n : nat) (s : string) : string :=
  match n, s with
  | O, _ => s
  | S _, EmptyString => EmptyString
  | S k, String _ r => dropChars k r
  end.

(** [s.replace(pat, rep)] with a string pattern: only the first occurrence
    is replaced. *)
Fixpoint replace (pat rep s : string) : string :=
  if String.prefix pat s then rep ++ dropChars (String.length pat) s
  else match s with
       | EmptyString => EmptyString
       | String c r => String c (replace pat rep r)
       end.

End JS.

(** ** The records of [src/types] as the store uses them *)

Inductive TaskStatus : Type :=
| pending | in_progress | completed | approved | rejected.

Inductive Priority : Type :=
| low | medium | high | urgent.

Inductive RecurringInterval : Type :=
| daily | weekly | monthly | yearly.

Inductive NotificationType : Type :=
| type_task | type_message | type_system | type_approval.

Definition TaskStatus_eqb (a b : TaskStatus) : bool :=
  match a, b with
  | pending, pending | in_progress, in_progress | completed, completed
  | approved, approved | rejected, rejected => true
  | _, _ => false
  end.

Definition NotificationType_eqb (a b : NotificationType) : bool :=
  match a, b with
  | type_task, type_task | type_message, type_message
  | type_system, type_system | type_approval, type_approval => true
  | _, _ => false
  end.

(** The string a status is at run time. *)
Definition statusString (st : TaskStatus) : string :=
  match st with
  | pending => "pending"
  | in_progress => "in-progress"
  | completed => "completed"
  | approved => "approved"
  | rejected => "rejected"
  end.

Module User.
Record t : Type := mk {
  id : string;
  name : string;
  email : string;
  phone : option string;
  role : string;
  department : option string;
  status : option string;
  createdAt : Z;
  lastLogin : option Z;
  password : option string
}.
End User.

Module Client.
Record t : Type := mk {
  id : string;
  name : string;
  email : string;
  phone : string;
  address : string;
  contactPerson : option string;
  isActive : bool;
  createdAt : Z
}.
End Client.

Module Milestone.
Record t : Type := mk {
  id : string;
  name : string;
  description : string;
  estimatedHours : Q;
  order : Z
}.
End Milestone.

Module TaskType.
Record t : Type := mk {
  id : string;
  name : string;
  description : string;
  category : string;
  defaultPriority : option Priority;
  estimatedHours : Q;
  isActive : bool;
  createdAt : Z;
  updatedAt : option Z;
  milestones : option (list Milestone.t)
}.
End TaskType.

Module ActivityEntry.
Record t : Type := mk {
  id : string;
  userId : string;
  userName : string;
  action : string;
  timestamp : Z
}.
End ActivityEntry.

Module MilestoneProgress.
Record t : Type := mk {
  milestoneId : string;
  completed : bool;
  completedAt : option Z;
  completedById : option string
}.
End MilestoneProgress.

Module Task.
Record t : Type := mk {
  id : string;
  taskNumber : string;
  title : string;
  description : string;
  taskTypeId : string;
  clientId : string;
  assignedToId : string;
  assignedById : string;
  status : TaskStatus;
  priority : Priority;
  dueDate : Z;
  createdAt : Z;
  completedAt : option Z;
  approvedAt : option Z;
  estimatedHours : Q;
  actualHours : option Q;
  comments : option string;
  isRecurring : bool;
  recurringInterval : option RecurringInterval;
  assignedUsers : option (list string);
  activityLog : option (list ActivityEntry.t);
  milestoneProgress : option (list MilestoneProgress.t);
  updatedAt : option Z;
  updatedById : option string
}.
End Task.

(** [Partial<Task>]: every key may be missing. *)
Module TaskPatch.
Record t : Type := mk {
  id : option string;
  taskNumber : option string;
  title : option string;
  description : option string;
  taskTypeId : option string;
  clientId : option string;
  assignedToId : option string;
  assignedById : option string;
  status : option TaskStatus;
  priority : option Priority;
  dueDate : option Z;
  createdAt : option Z;
  completedAt : option Z;
  approvedAt : option Z;
  estimatedHours : option Q;
  actualHours : option Q;
  comments : option string;
  isRecurring : option bool;
  recurringInterval : option RecurringInterval;
  assignedUsers : option (list string);
  activityLog : option (list ActivityEntry.t);
  milestoneProgress : option (list MilestoneProgress.t);
  updatedAt : option Z;
  updatedById : option string
}.

(** The patch with no key. *)
Definition empty : t :=
  mk None None None None None None None None None None None None
     None None None None None None None None None None None None.
End TaskPatch.

(** [Partial<TaskType>] *)
Module TaskTypePatch.
Record t : Type := mk {
  id : option string;
  name : option string;
  description : option string;
  category : option string;
  defaultPriority : option Priority;
  estimatedHours : option Q;
  isActive : option bool;
  createdAt : option Z;
  updatedAt : option Z;
  milestones : option (list Milestone.t)
}.
End TaskTypePatch.

Module ChatMessage.
Record t : Type := mk {
  id : string;
  taskId : string;
  userId : string;
  userName : string;
  message : string;
  timestamp : Z
}.
End ChatMessage.

Module Notification.
Record t : Type := mk {
  id : string;
  type : NotificationType;
  title : string;
  message : string;
  timestamp : Z;
  isRead : bool;
  userId : string;
  taskId : option string;
  priority : option Priority
}.
End Notification.

(** ** The store: the six collections held in React state *)

Record Store : Type := mkStore {
  users : list User.t;
  tasks : list Task.t;
  clients : list Client.t;
  taskTypes : list TaskType.t;
  chatMessages : list ChatMessage.t;
  notifications : list Notification.t
}.

(** The functional updaters [setTasks(prev => f prev)] and its siblings. *)
Definition setTasks (f : list Task.t -> list Task.t) (s : Store) : Store :=
  mkStore (users s) (f (tasks s)) (clients s) (taskTypes s) (chatMessages s)
          (notifications s).

Definition setTaskTypes (f : list TaskType.t -> list TaskType.t) (s : Store)
  : Store :=
  mkStore (users s) (tasks s) (clients s) (f (taskTypes s)) (chatMessages s)
          (notifications s).

Definition setChatMessages (f : list ChatMessage.t -> list ChatMessage.t)
  (s : Store) : Store :=
  mkStore (users s) (tasks s) (clients s) (taskTypes s) (f (chatMessages s))
          (notifications s).

Definition setNotifications (f : list Notification.t -> list Notification.t)
  (s : Store) : Store :=
  mkStore (users s) (tasks s) (clients s) (taskTypes s) (chatMessages s)
          (f (notifications s)).

(** The events [generateTaskNotification] is called with. *)
Inductive TaskEvent : Type :=
| ev_created | ev_assigned | ev_updated | ev_completed | ev_overdue.

(** [Omit<Notification, 'id' | 'timestamp'>] *)
Record NotificationData : Type := mkData {
  d_type : NotificationType;
  d_title : string;
  d_message : string;
  d_isRead : bool;
  d_userId : string;
  d_taskId : option string;
  d_priority : option Priority
}.

(** Record updates written [{ ...task, key: value }] in the source. *)
Definition withActivityLog (t : Task.t) (l : option (list ActivityEntry.t))
  : Task.t :=
  Task.mk (Task.id t) (Task.taskNumber t) (Task.title t) (Task.description t)
    (Task.taskTypeId t) (Task.clientId t) (Task.assignedToId t)
    (Task.assignedById t) (Task.status t) (Task.priority t) (Task.dueDate t)
    (Task.createdAt t) (Task.completedAt t) (Task.approvedAt t)
    (Task.estimatedHours t) (Task.actualHours t) (Task.comments t)
    (Task.isRecurring t) (Task.recurringInterval t) (Task.assignedUsers t)
    l (Task.milestoneProgress t) (Task.updatedAt t) (Task.updatedById t).

Definition withMilestoneProgress (t : Task.t)
  (p : list MilestoneProgress.t) (at_ : Z) : Task.t :=
  Task.mk (Task.id t) (Task.taskNumber t) (Task.title t) (Task.description t)
    (Task.taskTypeId t) (Task.clientId t) (Task.assignedToId t)
    (Task.assignedById t) (Task.status t) (Task.priority t) (Task.dueDate t)
    (Task.createdAt t) (Task.completedAt t) (Task.approvedAt t)
    (Task.estimatedHours t) (Task.actualHours t) (Task.comments t)
    (Task.isRecurring t) (Task.recurringInterval t) (Task.assignedUsers t)
    (Task.activityLog t) (Some p) (Some at_) (Task.updatedById t).

Definition withIsRead (n : Notification.t) (b : bool) : Notification.t :=
  Notification.mk (Notification.id n) (Notification.type n)
    (Notification.title n) (Notification.message n)
    (Notification.timestamp n) b (Notification.userId n)
    (Notification.taskId n) (Notification.priority n).

Definition withMessageId (m : ChatMessage.t) (i : string) : ChatMessage.t :=
  ChatMessage.mk i (ChatMessage.taskId m) (ChatMessage.userId m)
    (ChatMessage.userName m) (ChatMessage.message m) (ChatMessage.timestamp m).

(** One key of a spread [{ ...record, ...patch }]: the patch's value when the
    patch has the key. *)
Definition patched {A : Type} (p : option A) (o : A) : A :=
  match p with
  | Some v => v
  | None => o
  end.

Definition patchedOpt {A : Type} (p o : option A) : option A :=
  match p with
  | Some v => Some v
  | None => o
  end.

(** [{ ...originalTask, ...updates }] *)
Definition mergeTask (o : Task.t) (u : TaskPatch.t) : Task.t :=
  Task.mk
    (patched (TaskPatch.id u) (Task.id o))
    (patched (TaskPatch.taskNumber u) (Task.taskNumber o))
    (patched (TaskPatch.title u) (Task.title o))
    (patched (TaskPatch.description u) (Task.description o))
    (patched (TaskPatch.taskTypeId u) (Task.taskTypeId o))
    (patched (TaskPatch.clientId u) (Task.clientId o))
    (patched (TaskPatch.assignedToId u) (Task.assignedToId o))
    (patched (TaskPatch.assignedById u) (Task.assignedById o))
    (patched (TaskPatch.status u) (Task.status o))
    (patched (TaskPatch.priority u) (Task.priority o))
    (patched (TaskPatch.dueDate u) (Task.dueDate o))
    (patched (TaskPatch.createdAt u) (Task.createdAt o))
    (patchedOpt (TaskPatch.completedAt u) (Task.completedAt o))
    (patchedOpt (TaskPatch.approvedAt u) (Task.approvedAt o))
    (patched (TaskPatch.estimatedHours u) (Task.estimatedHours o))
    (patchedOpt (TaskPatch.actualHours u) (Task.actualHours o))
    (patchedOpt (TaskPatch.comments u) (Task.comments o))
    (patched (TaskPatch.isRecurring u) (Task.isRecurring o))
    (patchedOpt (TaskPatch.recurringInterval u) (Task.recurringInterval o))
    (patchedOpt (TaskPatch.assignedUsers u) (Task.assignedUsers o))
    (patchedOpt (TaskPatch.activityLog u) (Task.activityLog o))
    (patchedOpt (TaskPatch.milestoneProgress u) (Task.milestoneProgress o))
    (patchedOpt (TaskPatch.updatedAt u) (Task.updatedAt o))
    (patchedOpt (TaskPatch.updatedById u) (Task.updatedById o)).

(** [{ ...taskType, ...updates, updatedAt: new Date() }] *)
Definition mergeTaskType (o : TaskType.t) (u : TaskTypePatch.t) (now : Z)
  : TaskType.t :=
  TaskType.mk
    (patched (TaskTypePatch.id u) (TaskType.id o))
    (patched (TaskTypePatch.name u) (TaskType.name o))
    (patched (TaskTypePatch.description u) (TaskType.description o))
    (patched (TaskTypePatch.category u) (TaskType.category o))
    (patchedOpt (TaskTypePatch.defaultPriority u) (TaskType.defaultPriority o))
    (patched (TaskTypePatch.estimatedHours u) (TaskType.estimatedHours o))
    (patched (TaskTypePatch.isActive u) (TaskType.isActive o))
    (patched (TaskTypePatch.createdAt u) (TaskType.createdAt o))
    (Some now)
    (patchedOpt (TaskTypePatch.milestones u) (TaskType.milestones o)).

(** [list || []] *)
Definition orEmpty {A : Type} (o : option (list A)) : list A :=
  match o with
  | Some l => l
  | None => []
  end.

(** [o || s] for an optional string [o]: [s] when [o] is missing or empty. *)
Definition optOrElse (o : option string) (s : string) : string :=
  match o with
  | Some v => JS.orElse v s
  | None => s
  end.

(** ** The operations of [DataProvider] *)

(** What the module takes from its host: [new Date(ms).toLocaleDateString()],
    whose output depends on the locale and the time zone of the browser. *)
Class Host : Type := {
  toLocaleDateString : Z -> string
}.

Section DataProvider.

Context {host : Host}.

Definition findTask (l : list Task.t) (id : string) : option Task.t :=
  find (fun t => Task.id t =? id)%string l.

Definition findUser (l : list User.t) (id : string) : option User.t :=
  find (fun u => User.id u =? id)%string l.

Definition findClient (l : list Client.t) (id : string) : option Client.t :=
  find (fun c => Client.id c =? id)%string l.

Definition findTaskType (l : list TaskType.t) (id : string)
  : option TaskType.t :=
  find (fun tt => TaskType.id tt =? id)%string l.

(** [{ ...notificationData, id: Date.now().toString(), timestamp: new Date() }] *)
Definition stamped (now : Z) (d : NotificationData) : Notification.t :=
  Notification.mk (JS.toString now) (d_type d) (d_title d) (d_message d)
    now (d_isRead d) (d_userId d) (d_taskId d) (d_priority d).

Definition addNotification (now : Z) (d : NotificationData) (cur : Store)
  : Store :=
  let newNotification := stamped now d in
  setNotifications (fun prev => (prev ++ [newNotification])%list) cur.

(** The [switch] of [generateTaskNotification]: title, message, priority
    and recipient of an event. *)
Definition taskNotificationData (snap : Store) (task : Task.t)
  (type : TaskEvent) : NotificationData :=
  let taskTypeName :=
    JS.nameOr TaskType.name
      (findTaskType (taskTypes snap) (Task.taskTypeId task))
      "Unknown Task" in
  let clientName :=
    JS.nameOr Client.name (findClient (clients snap) (Task.clientId task))
      "Unknown Client" in
  let priority := Task.priority task in
  match type with
  | ev_created =>
      mkData type_task "New task created"
        (taskTypeName ++ " created for " ++ clientName) false
        (Task.assignedToId task) (Some (Task.id task)) (Some priority)
  | ev_assigned =>
      mkData type_task "Task assigned to you"
        (taskTypeName ++ " for " ++ clientName) false
        (Task.assignedToId task) (Some (Task.id task)) (Some priority)
  | ev_updated =>
      mkData type_task "Task updated"
        (taskTypeName ++ " has been updated") false
        (Task.assignedToId task) (Some (Task.id task)) (Some priority)
  | ev_completed =>
      mkData type_task "Task completed"
        (taskTypeName ++ " has been marked as completed") false
        (Task.assignedById task) (Some (Task.id task)) (Some priority)
  | ev_overdue =>
      mkData type_task "Task overdue"
        (taskTypeName ++ " was due on "
           ++ toLocaleDateString (Task.dueDate task)) false
        (Task.assignedToId task) (Some (Task.id task)) (Some urgent)
  end.

Definition generateTaskNotification (snap : Store) (now : Z) (task : Task.t)
  (type : TaskEvent) (cur : Store) : Store :=
  let d := taskNotificationData snap task type in
  if JS.truthy (d_userId d) then addNotification now d cur else cur.

(** The body of a message notification. *)
Definition messagePreview (senderName message : string) : string :=
  senderName ++ ": " ++ JS.substring0 50 message
    ++ (if (50 <? String.length message)%nat then "..." else "").

(** The object [generateMessageNotification] passes to [addNotification]
    for one recipient. *)
Definition messageNotificationData (task : Task.t) (senderName : string)
  (message : ChatMessage.t) (userId : string) : NotificationData :=
  mkData type_message ("New message in " ++ Task.title task)
    (messagePreview senderName (ChatMessage.message message))
    false userId (Some (Task.id task)) None.

Definition senderNameOf (snap : Store) (message : ChatMessage.t) : string :=
  JS.nameOr User.name (findUser (users snap) (ChatMessage.userId message))
    "Unknown User".

Definition generateMessageNotification (snap : Store) (now : Z)
  (message : ChatMessage.t) (cur : Store) : Store :=
  match findTask (tasks snap) (ChatMessage.taskId message) with
  | None => cur
  | Some task =>
      let senderName := senderNameOf snap message in
      let usersToNotify :=
        filter (fun id => negb (id =? ChatMessage.userId message)%string)
               [Task.assignedToId task; Task.assignedById task] in
      fold_left
        (fun c userId =>
           if JS.truthy userId then
             addNotification now
               (messageNotificationData task senderName message userId) c
           else c)
        usersToNotify cur
  end.

(** The numeric suffixes [generateTaskNumber] collects: of the task numbers
    that are non-empty and of the form T###, the integer after the T. *)
Definition existingNumbers (l : list Task.t) : list Z :=
  flat_map
    (fun num => match JS.parseInt (JS.substringFrom1 num) with
                | Some n => [n]
                | None => []
                end)
    (filter (fun num => JS.truthy num && JS.test_T3 num)
            (map Task.taskNumber l)).

Definition nextNumber (l : list Task.t) : Z :=
  let nums := existingNumbers l in
  if (0 <? List.length nums)%nat then JS.max_list 0 nums + 1 else 1.

Definition generateTaskNumber (snap : Store) : string :=
  "T" ++ JS.padStart 3 "0" (JS.toString (nextNumber (tasks snap))).

(** The task [addTask] builds from its argument; the argument's own [id],
    [taskNumber], [createdAt], [assignedUsers] and [activityLog] keys are
    overwritten by the keys that follow the spread. *)
Definition newTaskOf (snap : Store) (now : Z) (taskData : Task.t) : Task.t :=
  Task.mk (JS.toString now) (generateTaskNumber snap)
    (Task.title taskData) (Task.description taskData)
    (Task.taskTypeId taskData) (Task.clientId taskData)
    (Task.assignedToId taskData) (Task.assignedById taskData)
    (Task.status taskData) (Task.priority taskData) (Task.dueDate taskData)
    now (Task.completedAt taskData) (Task.approvedAt taskData)
    (Task.estimatedHours taskData) (Task.actualHours taskData)
    (Task.comments taskData) (Task.isRecurring taskData)
    (Task.recurringInterval taskData)
    (match Task.assignedUsers taskData with
     | Some l => Some l
     | None => Some [Task.assignedToId taskData]
     end)
    (Some [ ActivityEntry.mk "1" (Task.assignedById taskData)
              (JS.nameOr User.name
                 (findUser (users snap) (Task.assignedById taskData))
                 "Unknown")
              ("Task created and assigned to "
                 ++ JS.nameOr User.name
                      (findUser (users snap) (Task.assignedToId taskData))
                      "Unknown")
              now ])
    (Task.milestoneProgress taskData) (Task.updatedAt taskData)
    (Task.updatedById taskData).

Definition addTask (snap : Store) (now : Z) (taskData : Task.t)
  (cur : Store) : Store :=
  let newTask := newTaskOf snap now taskData in
  let cur1 := setTasks (fun prev => (prev ++ [newTask])%list) cur in
  let cur2 := generateTaskNotification snap now newTask ev_created cur1 in
  generateTaskNotification snap now newTask ev_assigned cur2.

(** [updates.status && updates.status !== originalTask.status] *)
Definition statusChanged (originalTask : Task.t) (updates : TaskPatch.t)
  : option TaskStatus :=
  match TaskPatch.status updates with
  | Some st => if TaskStatus_eqb st (Task.status originalTask) then None
               else Some st
  | None => None
  end.

(** [status.replace('-', ' ')] *)
Definition statusText (st : TaskStatus) : string :=
  JS.replace "-" " " (statusString st).

Definition activityEntryOf (snap : Store) (now : Z) (originalTask : Task.t)
  (updates : TaskPatch.t) (st : TaskStatus) : ActivityEntry.t :=
  let actor := optOrElse (TaskPatch.updatedById updates)
                         (Task.assignedById originalTask) in
  ActivityEntry.mk (JS.toString now) actor
    (JS.nameOr User.name (findUser (users snap) actor) "Unknown")
    ("Status changed from " ++ statusText (Task.status originalTask)
       ++ " to " ++ statusText st)
    now.

Definition updatedTaskOf (snap : Store) (now : Z) (originalTask : Task.t)
  (updates : TaskPatch.t) : Task.t :=
  let updatedTask := mergeTask originalTask updates in
  match statusChanged originalTask updates with
  | Some st =>
      withActivityLog updatedTask
        (Some (orEmpty (Task.activityLog originalTask)
                 ++ [activityEntryOf snap now originalTask updates st])%list)
  | None => updatedTask
  end.

Definition updateTask (snap : Store) (now : Z) (id : string)
  (updates : TaskPatch.t) (cur : Store) : Store :=
  match findTask (tasks snap) id with
  | None => cur
  | Some originalTask =>
      let updatedTask := updatedTaskOf snap now originalTask updates in
      let cur1 :=
        setTasks
          (map (fun task => if (Task.id task =? id)%string then updatedTask
                            else task)) cur in
      match TaskPatch.status updates with
      | Some completed =>
          generateTaskNotification snap now updatedTask ev_completed cur1
      | Some _ =>
          generateTaskNotification snap now updatedTask ev_updated cur1
      | None => cur1
      end
  end.

Definition deleteTask (id : string) (cur : Store) : Store :=
  setTasks (filter (fun task => negb (Task.id task =? id)%string)) cur.

(** [newMilestones.some(milestone => milestone.id === progress.milestoneId)] *)
Definition milestoneExists (newMilestones : list Milestone.t)
  (progress : MilestoneProgress.t) : bool :=
  existsb
    (fun milestone =>
       (Milestone.id milestone =? MilestoneProgress.milestoneId progress)
         %string)
    newMilestones.

Definition syncTaskMilestones (now : Z) (taskTypeId : string)
  (newMilestones : list Milestone.t) (cur : Store) : Store :=
  setTasks
    (map (fun task =>
            if (Task.taskTypeId task =? taskTypeId)%string then
              let currentProgress := orEmpty (Task.milestoneProgress task) in
              let updatedProgress :=
                filter (milestoneExists newMilestones) currentProgress in
              withMilestoneProgress task updatedProgress now
            else task))
    cur.

Definition has (notifiedUsers : list string) (userId : string) : bool :=
  existsb (fun u => (u =? userId)%string) notifiedUsers.

Definition milestoneNotice (taskTypeName userId : string)
  : NotificationData :=
  mkData type_system "Task milestones updated"
    ("Milestones for " ++ String (ascii_of_nat 34) taskTypeName
       ++ String (ascii_of_nat 34)
            " tasks have been updated. Please review your tasks.")
    false userId None (Some medium).

(** The loop of [notifyMilestoneUpdates]; its state is the set of users
    already told and the pending store. *)
Definition notifyOne (now : Z) (taskTypeName : string)
  (acc : list string * Store) (userId : string) : list string * Store :=
  let (notifiedUsers, c) := acc in
  if has notifiedUsers userId then acc
  else (userId :: notifiedUsers,
        addNotification now (milestoneNotice taskTypeName userId) c).

Definition notifyMilestoneUpdates (snap : Store) (now : Z)
  (taskTypeId taskTypeName : string) (cur : Store) : Store :=
  let affectedTasks :=
    filter (fun task => (Task.taskTypeId task =? taskTypeId)%string)
           (tasks snap) in
  snd (fold_left
         (fun acc task =>
            let acc1 :=
              if JS.truthy (Task.assignedToId task)
              then notifyOne now taskTypeName acc (Task.assignedToId task)
              else acc in
            match Task.assignedUsers task with
            | Some l => fold_left (notifyOne now taskTypeName) l acc1
            | None => acc1
            end)
         affectedTasks ([], cur)).

Definition updateTaskType (snap : Store) (now : Z) (id : string)
  (updates : TaskTypePatch.t) (cur : Store) : Store :=
  let originalTaskType := findTaskType (taskTypes snap) id in
  let cur1 :=
    setTaskTypes
      (map (fun taskType =>
              if (TaskType.id taskType =? id)%string
              then mergeTaskType taskType updates now else taskType))
      cur in
  match TaskTypePatch.milestones updates, originalTaskType with
  | Some newMilestones, Some original =>
      notifyMilestoneUpdates snap now id (TaskType.name original)
        (syncTaskMilestones now id newMilestones cur1)
  | _, _ => cur1
  end.

Definition addChatMessage (snap : Store) (now : Z)
  (messageData : ChatMessage.t) (cur : Store) : Store :=
  let newMessage := withMessageId messageData (JS.toString now) in
  let cur1 := setChatMessages (fun prev => (prev ++ [newMessage])%list) cur in
  generateMessageNotification snap now newMessage cur1.

Definition markAllNotificationsAsRead (userId : string) (cur : Store)
  : Store :=
  setNotifications
    (map (fun notification =>
            if (Notification.userId notification =? userId)%string
            then withIsRead notification true else notification))
    cur.

(** The condition of the overdue scan on one task. *)
Definition isOverdue (now : Z) (task : Task.t) : bool :=
  (Task.dueDate task <? now)
  && negb (TaskStatus_eqb (Task.status task) completed)
  && negb (TaskStatus_eqb (Task.status task) approved).

Definition optStringEqb (o : option string) (s : string) : bool :=
  match o with
  | Some v => (v =? s)%string
  | None => false
  end.

Definition hasOverdueNotification (l : list Notification.t) (task : Task.t)
  : bool :=
  existsb
    (fun n =>
       optStringEqb (Notification.taskId n) (Task.id task)
       && NotificationType_eqb (Notification.type n) type_task
       && JS.includes (Notification.title n) "overdue")
    l.

(** [checkOverdueTasks], the body of the effect that runs after every
    change of the tasks or of the notifications. *)
Definition checkOverdueTasks (snap : Store) (now : Z) (cur : Store)
  : Store :=
  fold_left
    (fun c task =>
       if isOverdue now task then
         if negb (hasOverdueNotification (notifications snap) task)
         then generateTaskNotification snap now task ev_overdue c
         else c
       else c)
    (tasks snap) cur.

(** A run of [addTask] calls, each made from the render that followed the
    call before it; a call is given by the reading of the clock and the
    form data. *)
Definition addTasks (calls : list (Z * Task.t)) (s : Store) : Store :=
  fold_left (fun st call => addTask st (fst call) (snd call) st) calls s.

End DataProvider.

(** The notifications appended between two states of the store. *)
Definition emittedBetween (before after : Store) : list Notification.t :=
  skipn (List.length (notifications before)) (notifications after).


(** ** The task-number rule in the words of the specification

    The numeric suffix of a task number of the exact form T followed by three
    digits, and the next number: the largest such suffix (0 when there is
    none) plus one.  [nextNumber], translated from the source, is compared
    with it below. *)

Definition suffixOf (num : string) : option Z :=
  match num with
  | String t (String a (String b (String c EmptyString))) =>
      if Ascii.eqb t "T" && JS.isDigit a && JS.isDigit b && JS.isDigit c
      then Some (100 * JS.digitValue a + 10 * JS.digitValue b
                 + JS.digitValue c)
      else None
  | _ => None
  end.

Definition suffixes (l : list Task.t) : list Z :=
  flat_map (fun t => match suffixOf (Task.taskNumber t) with
                     | Some n => [n]
                     | None => []
                     end) l.

Definition specNextNumber (l : list Task.t) : Z :=
  fold_right Z.max 0 (suffixes l) + 1.

(** The rendering of a number as a task number, and the check that it has the
    form T### and reads back as the same number. *)
Definition renderTaskNumber (n : Z) : string :=
  "T" ++ JS.padStart 3 "0" (JS.toString n).

Definition rendersWell (k : nat) : bool :=
  match suffixOf (renderTaskNumber (Z.of_nat k)) with
  | Some m => m =? Z.of_nat k
  | None => false
  end.

(** ** Sample data for the closed examples *)

Definition emptyStore : Store := mkStore [] [] [] [] [] [].

(** What the task form of the home page submits. *)
Definition sampleTaskData : Task.t :=
  Task.mk "" "" "Quarterly filing" "File the quarterly return" "1" "2" "2" "1"
    pending high 1722297600000 0 None None (8 # 1) (Some (0 # 1)) None false
    None (Some []) None None None None.

(** [n] calls of [addTask] one millisecond apart. *)
Definition sampleCalls (n : nat) : list (Z * Task.t) :=
  map (fun i => (1719849600000 + Z.of_nat i, sampleTaskData)) (seq 0 n).

(** ** The collections of the first render

    The literals of the [useState] calls, for a browser with no saved users.
    A date literal is read in UTC; [mount] is the time of the first render,
    which the default administrator carries as [lastLogin]. *)

Definition defaultUsers (mount : Z) : list User.t :=
  [ User.mk "1" "Admin User" "admin@ca.com" (Some "+1-555-0101") "admin"
      (Some "Management") (Some "active") 1704067200000 (Some mount)
      (Some "admin123");
    User.mk "2" "John Doe" "john@ca.com" (Some "+1-555-0102") "user"
      (Some "Accounting") (Some "active") 1705276800000 (Some 1718841600000)
      (Some "john123");
    User.mk "3" "Jane Smith" "jane@ca.com" (Some "+1-555-0103") "user"
      (Some "Tax") (Some "active") 1706745600000 (Some 1719014400000)
      (Some "jane123") ].

Definition initialClients : list Client.t :=
  [ Client.mk "1" "ABC Limited" "contact@abc.com" "+1-555-1001"
      "123 Business Street, City, State 12345" (Some "Michael Johnson") true
      1704844800000;
    Client.mk "2" "XYZ Corporation" "info@xyz.com" "+1-555-1002"
      "456 Corporate Ave, City, State 67890" (Some "Sarah Wilson") true
      1705708800000 ].

Definition taxReturnType : TaskType.t :=
  TaskType.mk "1" "Tax Return Preparation"
  "Prepare individual and corporate tax returns" "Tax" (Some medium)
  (8 # 1) true 1704067200000 (Some 1704067200000)
  (Some
     [ Milestone.mk "1" "Document Collection"
         "Collect all necessary tax documents" (2 # 1) 1;
       Milestone.mk "2" "Data Entry" "Enter data into tax software"
         (3 # 1) 2;
       Milestone.mk "3" "Review & Verification"
         "Review calculations and verify accuracy" (2 # 1) 3;
       Milestone.mk "4" "Final Submission"
         "Submit tax return to authorities" (1 # 1) 4 ]).

Definition auditType : TaskType.t :=
  TaskType.mk "2" "Audit Preparation"
  "Prepare documentation for annual audit" "Audit" (Some high)
  (16 # 1) true 1704067200000 (Some 1704067200000)
  (Some
     [ Milestone.mk "1" "Document Gathering"
         "Collect audit-required documents" (4 # 1) 1;
       Milestone.mk "2" "Trial Balance" "Prepare trial balance" (6 # 1) 2;
       Milestone.mk "3" "Working Papers" "Prepare audit working papers"
         (4 # 1) 3;
       Milestone.mk "4" "Final Review" "Final review before audit"
         (2 # 1) 4 ]).

Definition statementsType : TaskType.t :=
  TaskType.mk "3" "Monthly Financial Statements"
  "Prepare monthly financial statements" "Accounting" (Some medium)
  (6 # 1) true 1704067200000 (Some 1704067200000)
  (Some
     [ Milestone.mk "1" "Journal Entries" "Post monthly journal entries"
         (2 # 1) 1;
       Milestone.mk "2" "Bank Reconciliation" "Reconcile bank statements"
         (2 # 1) 2;
       Milestone.mk "3" "Financial Statements"
         "Generate financial statements" (2 # 1) 3 ]).

Definition complianceType : TaskType.t :=
  TaskType.mk "4" "Compliance Review"
  "Review compliance with regulatory requirements" "Compliance"
  (Some high) (12 # 1) true 1704067200000 (Some 1704067200000)
  (Some
     [ Milestone.mk "1" "Regulation Analysis"
         "Analyze applicable regulations" (4 # 1) 1;
       Milestone.mk "2" "Compliance Check"
         "Check current compliance status" (4 # 1) 2;
       Milestone.mk "3" "Gap Analysis" "Identify compliance gaps"
         (2 # 1) 3;
       Milestone.mk "4" "Remediation Plan" "Create remediation plan"
         (2 # 1) 4 ]).

Definition initialTaskTypes : list TaskType.t :=
  [taxReturnType; auditType; statementsType; complianceType].

Definition task1 : Task.t :=
  Task.mk "1" "T001" "Tax Return Preparation"
  "Prepare tax returns for Q4 2024" "1" "2" "2" "1" pending high
  1722297600000 1718409600000 None None (8 # 1) (Some (0 # 1)) None false
  None (Some ["2"])
  (Some [ ActivityEntry.mk "1" "1" "Admin User"
            "Task created and assigned to John Doe" 1718445600000 ])
  None None None.

Definition task2 : Task.t :=
  Task.mk "2" "T002" "Audit Preparation"
  "Prepare documentation for annual audit" "2" "2" "2" "1" pending urgent
  1722297600000 1718841600000 None None (16 # 1) (Some (0 # 1)) None false
  None (Some ["2"])
  (Some [ ActivityEntry.mk "1" "1" "Admin User"
            "Task created and assigned to John Doe" 1718874000000 ])
  None None None.

Definition task3 : Task.t :=
  Task.mk "3" "T003" "Monthly Financial Statements"
  "Prepare monthly financial statements for May 2024" "3" "1" "3" "1"
  in_progress medium 1721001600000 1717977600000 None None (6 # 1)
  (Some (3 # 1)) None true (Some monthly) (Some ["3"])
  (Some [ ActivityEntry.mk "1" "1" "Admin User"
            "Task created and assigned to Jane Smith" 1718028000000;
          ActivityEntry.mk "2" "3" "Jane Smith"
            "Status changed to In Progress" 1718182800000 ])
  None None None.

Definition initialTasks : list Task.t := [task1; task2; task3].

Definition initialChatMessages : list ChatMessage.t :=
  [ ChatMessage.mk "1" "1" "1" "Admin User"
      "Please start working on this tax return preparation. The client has provided all necessary documents."
      1718445600000;
    ChatMessage.mk "2" "1" "2" "John Doe"
      "Understood. I will begin reviewing the documents today." 1718461800000;
    ChatMessage.mk "3" "2" "1" "Admin User"
      "This audit preparation is urgent. Please prioritize this task."
      1718874000000;
    ChatMessage.mk "4" "3" "3" "Jane Smith"
      "I have completed the preliminary work. Will finish by tomorrow."
      1719244800000 ].

Definition initialNotifications : list Notification.t :=
  [ Notification.mk "1" type_task "Task overdue"
      "Tax Return Preparation was due on 7/30/2024" 1719244800000 false "2"
      (Some "1") (Some urgent);
    Notification.mk "2" type_task "Task overdue"
      "Audit Preparation was due on 7/30/2024" 1722330000000 false "2"
      (Some "2") (Some urgent);
    Notification.mk "3" type_task "Task overdue"
      "Monthly Financial Statements was due on 7/15/2024" 1721037600000 false
      "3" (Some "3") (Some medium);
    Notification.mk "4" type_message "New message in Tax Return Preparation"
      "Please start working on this tax return preparation..." 1719243000000
      false "2" (Some "1") None;
    Notification.mk "5" type_approval "Task pending approval"
      "Monthly Financial Statements is ready for review" 1719237600000 false
      "1" (Some "3") None ].

Definition initialStore (mount : Z) : Store :=
  mkStore (defaultUsers mount) initialTasks initialClients initialTaskTypes
          initialChatMessages initialNotifications.

(** 1 August 2024, 00:00 UTC: every task of the first render is past due. *)
Definition august1 : Z := 1722470400000.


(** ** What the generator appends

    The notifications one call of [generateTaskNotification] appends, and
    those the body of the overdue scan appends for one task. *)

Section Emissions.

Context {host : Host}.

Definition taskNotifications (snap : Store) (now : Z) (task : Task.t)
  (type : TaskEvent) : list Notification.t :=
  let d := taskNotificationData snap task type in
  if JS.truthy (d_userId d) then [stamped now d] else [].

Definition overdueNotifications (snap : Store) (now : Z) (task : Task.t)
  : list Notification.t :=
  if isOverdue now task
     && negb (hasOverdueNotification (notifications snap) task)
  then taskNotifications snap now task ev_overdue
  else [].

End Emissions.

(** A past-due task that nobody is assigned to, and a list in which two
    past-due tasks carry the same id. *)
Definition unassignedTask : Task.t :=
  Task.mk "7" "T007" "Unassigned filing" "" "1" "1" "" "1" in_progress low
    1721001600000 1717977600000 None None (1 # 1) None None false None None
    None None None None.

Definition twinTask : Task.t :=
  Task.mk "7" "T008" "Twin filing" "" "1" "1" "2" "1" pending low
    1721001600000 1717977600000 None None (1 # 1) None None false None None
    None None None None.

Definition unassignedStore : Store :=
  mkStore [] [unassignedTask] [] [] [] [].

Definition twinStore : Store :=
  mkStore [] [twinTask; twinTask] [] [] [] [].

(** ** One host: the en-US locale in UTC

    [toLocaleDateString] there writes month/day/year without padding.  The
    civil date of a day count follows the usual era-based conversion of the
    proleptic Gregorian calendar. *)

Definition civilFromDays (days : Z) : Z * Z * Z :=
  let z := days + 719468 in
  let era := z / 146097 in
  let doe := z - era * 146097 in
  let yoe := (doe - doe / 1460 + doe / 36524 - doe / 146096) / 365 in
  let doy := doe - (365 * yoe + yoe / 4 - yoe / 100) in
  let mp := (5 * doy + 2) / 153 in
  let d := doy - (153 * mp + 2) / 5 + 1 in
  let m := if mp <? 10 then mp + 3 else mp - 9 in
  let y := yoe + era * 400 + (if m <=? 2 then 1 else 0) in
  (y, m, d).

Definition enUSDate (ms : Z) : string :=
  let '(y, m, d) := civilFromDays (ms / 86400000) in
  JS.toString m ++ "/" ++ JS.toString d ++ "/" ++ JS.toString y.

Definition enUS : Host := {| toLocaleDateString := enUSDate |}.

(** The first render after its notifications were cleared. *)
Definition clearedStore (mount : Z) : Store :=
  mkStore (defaultUsers mount) initialTasks initialClients initialTaskTypes
          initialChatMessages [].

(** ** Sample patches *)

Definition noTaskTypeKeys : TaskTypePatch.t :=
  TaskTypePatch.mk None None None None None None None None None None.

(** The milestone list of the third task type without its last milestone. *)
Definition twoMilestones : list Milestone.t :=
  [ Milestone.mk "1" "Journal Entries" "Post monthly journal entries"
      (2 # 1) 1;
    Milestone.mk "2" "Bank Reconciliation" "Reconcile bank statements"
      (2 # 1) 2 ].

Definition milestonesPatch : TaskTypePatch.t :=
  TaskTypePatch.mk None None None None None None None None None
    (Some twoMilestones).

(** Progress on the first and on the third milestone, as the milestone
    toggle of the home page writes it. *)
Definition progressPatch : TaskPatch.t :=
  TaskPatch.mk None None None None None None None None None None None None
    None None None None None None None None None
    (Some [ MilestoneProgress.mk "1" true (Some 1719244800000) (Some "3");
            MilestoneProgress.mk "3" true (Some 1719331200000) (Some "3") ])
    (Some 1719331200000) (Some "3").

(** A status button pressed on a task that already has that status, the
    completion of a task, and a patch that replaces the activity log. *)
Definition inProgressPatch : TaskPatch.t :=
  TaskPatch.mk None None None None None None None None (Some in_progress)
    None None None None None None None None None None None None None None
    (Some "3").

Definition completedPatch : TaskPatch.t :=
  TaskPatch.mk None None None None None None None None (Some completed)
    None None None None None None None None None None None None None None
    (Some "3").

Definition logPatch : TaskPatch.t :=
  TaskPatch.mk None None None None None None None None None None None None
    None None None None None None None None
    (Some [ ActivityEntry.mk "9" "3" "Jane Smith" "Working papers uploaded"
              1719331200000 ])
    None None (Some "3").

(** A task created while nobody was signed in: the home page submits an empty
    [assignedById] then.  The store after that call, and a message that the
    task's assignee writes on it. *)
Definition orphanTaskData : Task.t :=
  Task.mk "" "" "Quarterly filing" "File the quarterly return" "1" "2" "2" ""
    pending high 1722297600000 0 None None (8 # 1) (Some (0 # 1)) None false
    None (Some []) None None None None.

Definition orphanStore : Store :=
  @addTask enUS (initialStore august1) august1 orphanTaskData
    (initialStore august1).

Definition orphanMessage : ChatMessage.t :=
  ChatMessage.mk "" (JS.toString august1) "2" "John Doe" "On it."
    (august1 + 60000).

(** A message of the administrator on the first task, longer than fifty
    characters. *)
Definition longMessage : ChatMessage.t :=
  ChatMessage.mk "" "1" "1" "Admin User"
    "The client has sent the missing statements this morning, please continue."
    (august1 + 60000).

(** ** The other operations of [DataProvider] *)

Definition setClients (f : list Client.t -> list Client.t) (s : Store)
  : Store :=
  mkStore (users s) (tasks s) (f (clients s)) (taskTypes s) (chatMessages s)
          (notifications s).

(** [setUsers(updatedUsers)]: the user operations write a list computed from
    the closure, not an updater of the pending state. *)
Definition setUsers (updatedUsers : list User.t) (s : Store) : Store :=
  mkStore updatedUsers (tasks s) (clients s) (taskTypes s) (chatMessages s)
          (notifications s).

(** [Partial<Client>] *)
Module ClientPatch.
Record t : Type := mk {
  id : option string;
  name : option string;
  email : option string;
  phone : option string;
  address : option string;
  contactPerson : option string;
  isActive : option bool;
  createdAt : option Z
}.
End ClientPatch.

(** [{ ...client, ...updates }] *)
Definition mergeClient (o : Client.t) (u : ClientPatch.t) : Client.t :=
  Client.mk
    (patched (ClientPatch.id u) (Client.id o))
    (patched (ClientPatch.name u) (Client.name o))
    (patched (ClientPatch.email u) (Client.email o))
    (patched (ClientPatch.phone u) (Client.phone o))
    (patched (ClientPatch.address u) (Client.address o))
    (patchedOpt (ClientPatch.contactPerson u) (Client.contactPerson o))
    (patched (ClientPatch.isActive u) (Client.isActive o))
    (patched (ClientPatch.createdAt u) (Client.createdAt o)).

(** The provider's state together with the [users] slot of [localStorage].
    The slot holds the JSON text of a list of users; it is represented by
    the list that was written, [None] while nothing was. *)
Record Browser : Type := mkBrowser {
  provider : Store;
  usersSlot : option (list User.t)
}.

(** [{ ...userData, id: Date.now().toString(), createdAt: new Date() }] *)
Definition newUserOf (now : Z) (userData : User.t) : User.t :=
  User.mk (JS.toString now) (User.name userData) (User.email userData)
    (User.phone userData) (User.role userData) (User.department userData)
    (User.status userData) now (User.lastLogin userData)
    (User.password userData).

Definition userAddedNotice (newUser admin : User.t) : NotificationData :=
  mkData type_system "New user added"
    (User.name newUser ++ " has been added to the system") false
    (User.id admin) None None.

Definition addUser (snap : Store) (now : Z) (userData : User.t)
  (cur : Browser) : Browser :=
  let newUser := newUserOf now userData in
  let updatedUsers := (users snap ++ [newUser])%list in
  let cur1 := setUsers updatedUsers (provider cur) in
  let adminUsers :=
    filter (fun u => (User.role u =? "admin")%string) (users snap) in
  let cur2 :=
    fold_left
      (fun c admin => addNotification now (userAddedNotice newUser admin) c)
      adminUsers cur1 in
  mkBrowser cur2 (Some updatedUsers).

Definition deleteUser (snap : Store) (id : string) (cur : Browser)
  : Browser :=
  let updatedUsers :=
    filter (fun user => negb (User.id user =? id)%string) (users snap) in
  mkBrowser (setUsers updatedUsers (provider cur)) (Some updatedUsers).

(** [{ ...clientData, id: Date.now().toString(), createdAt: new Date() }] *)
Definition newClientOf (now : Z) (clientData : Client.t) : Client.t :=
  Client.mk (JS.toString now) (Client.name clientData)
    (Client.email clientData) (Client.phone clientData)
    (Client.address clientData) (Client.contactPerson clientData)
    (Client.isActive clientData) now.

Definition addClient (now : Z) (clientData : Client.t) (cur : Store)
  : Store :=
  let newClient := newClientOf now clientData in
  setClients (fun prev => (prev ++ [newClient])%list) cur.

Definition updateClient (id : string) (updates : ClientPatch.t) (cur : Store)
  : Store :=
  setClients
    (map (fun client => if (Client.id client =? id)%string
                        then mergeClient client updates else client))
    cur.

Definition deleteClient (id : string) (cur : Store) : Store :=
  setClients (filter (fun client => negb (Client.id client =? id)%string))
    cur.

(** [{ ...taskTypeData, id: Date.now().toString(), createdAt: new Date() }] *)
Definition newTaskTypeOf (now : Z) (taskTypeData : TaskType.t) : TaskType.t :=
  TaskType.mk (JS.toString now) (TaskType.name taskTypeData)
    (TaskType.description taskTypeData) (TaskType.category taskTypeData)
    (TaskType.defaultPriority taskTypeData)
    (TaskType.estimatedHours taskTypeData) (TaskType.isActive taskTypeData)
    now (TaskType.updatedAt taskTypeData) (TaskType.milestones taskTypeData).

Definition addTaskType (now : Z) (taskTypeData : TaskType.t) (cur : Store)
  : Store :=
  let newTaskType := newTaskTypeOf now taskTypeData in
  setTaskTypes (fun prev => (prev ++ [newTaskType])%list) cur.

Definition deleteTaskType (id : string) (cur : Store) : Store :=
  setTaskTypes
    (filter (fun taskType => negb (TaskType.id taskType =? id)%string)) cur.

Definition markNotificationAsRead (id : string) (cur : Store) : Store :=
  setNotifications
    (map (fun notification =>
            if (Notification.id notification =? id)%string
            then withIsRead notification true else notification))
    cur.

Definition clearNotification (id : string) (cur : Store) : Store :=
  setNotifications
    (filter (fun notification =>
               negb (Notification.id notification =? id)%string))
    cur.

Definition clearAllNotifications (userId : string) (cur : Store) : Store :=
  setNotifications
    (filter (fun notification =>
               negb (Notification.userId notification =? userId)%string))
    cur.

(** The ids [notifyMilestoneUpdates] offers to its loop, task by task: the
    assignee when there is one, then the assigned users; and the ids of a
    list that the loop notifies, those not seen before, in order. *)
Definition milestoneAudience (l : list Task.t) : list string :=
  flat_map
    (fun task =>
       (if JS.truthy (Task.assignedToId task)
        then [Task.assignedToId task] else [])
         ++ orEmpty (Task.assignedUsers task))%list
    l.

Fixpoint firstSeen (seen : list string) (ids : list string) : list string :=
  match ids with
  | [] => []
  | u :: r => if has seen u then firstSeen seen r
              else u :: firstSeen (u :: seen) r
  end.

(** ** The signed-in user ([src/contexts/AuthContext.tsx]) *)

Module AuthUser.
Record t : Type := mk {
  id : string;
  name : string;
  email : string;
  role : string;
  isActive : bool;
  phone : option string;
  department : option string;
  createdAt : Z
}.
End AuthUser.

(** [isAdmin: user?.role === 'admin'] *)
Definition isAdmin (user : option AuthUser.t) : bool :=
  match user with
  | Some u => (AuthUser.role u =? "admin")%string
  | None => false
  end.

(** [user?.id] *)
Definition userIdOf (user : option AuthUser.t) : option string :=
  match user with
  | Some u => Some (AuthUser.id u)
  | None => None
  end.

(** ** The task page ([src/pages/Home.tsx]) *)

(** [taskType?.milestones || []] for the task type of a task. *)
Definition milestonesOf (s : Store) (task : Task.t) : list Milestone.t :=
  match findTaskType (taskTypes s) (Task.taskTypeId task) with
  | Some taskType => orEmpty (TaskType.milestones taskType)
  | None => []
  end.

(** The progress entries the task card counts: those of a milestone the task
    type still has. *)
Definition validProgress (s : Store) (task : Task.t)
  : list MilestoneProgress.t :=
  filter (milestoneExists (milestonesOf s task))
         (orEmpty (Task.milestoneProgress task)).

Definition validCompletedCount (s : Store) (task : Task.t) : nat :=
  List.length (filter MilestoneProgress.completed (validProgress s task)).

(** [progress?.completed || false] for the entry found for a milestone. *)
Definition isCompleted (s : Store) (task : Task.t) (milestone : Milestone.t)
  : bool :=
  match find (fun mp => (MilestoneProgress.milestoneId mp
                           =? Milestone.id milestone)%string)
             (validProgress s task) with
  | Some progress => MilestoneProgress.completed progress
  | None => false
  end.

(** [task.assignedToId === user?.id || task.assignedUsers?.includes(user?.id)] *)
Definition isAssignee (user : option AuthUser.t) (task : Task.t) : bool :=
  match userIdOf user with
  | Some uid =>
      (Task.assignedToId task =? uid)%string
      || existsb (fun u => (u =? uid)%string)
                 (orEmpty (Task.assignedUsers task))
  | None => false
  end.

Definition canChangeStatus (user : option AuthUser.t) (task : Task.t)
  : bool :=
  if isAdmin user then true
  else if TaskStatus_eqb (Task.status task) completed
          || TaskStatus_eqb (Task.status task) approved
       then false
       else isAssignee user task.

(** [l.findIndex(p)]; [None] is -1. *)
Fixpoint findIndex {A : Type} (p : A -> bool) (l : list A) : option nat :=
  match l with
  | [] => None
  | x :: r => if p x then Some O
              else match findIndex p r with
                   | Some i => Some (S i)
                   | None => None
                   end
  end.

(** [l[i] = f(l[i])] on a copy of [l], for an index inside the list. *)
Fixpoint updateAt {A : Type} (i : nat) (f : A -> A) (l : list A) : list A :=
  match l, i with
  | [], _ => []
  | x :: r, O => f x :: r
  | x :: r, S k => x :: updateAt k f r
  end.

(** The list [handleMilestoneToggle] writes back. *)
Definition toggledProgress (now : Z) (user : option AuthUser.t)
  (currentProgress : list MilestoneProgress.t) (milestoneId : string)
  (completed : bool) : list MilestoneProgress.t :=
  let completedAt := if completed then Some now else None in
  let completedById := if completed then userIdOf user else None in
  match findIndex
          (fun mp => (MilestoneProgress.milestoneId mp =? milestoneId)%string)
          currentProgress with
  | Some existingIndex =>
      updateAt existingIndex
        (fun old => MilestoneProgress.mk (MilestoneProgress.milestoneId old)
                      completed completedAt completedById)
        currentProgress
  | None =>
      (currentProgress
         ++ [MilestoneProgress.mk milestoneId completed completedAt
               completedById])%list
  end.

(** The patches the handlers of the page pass to [updateTask]. *)
Definition progressUpdate (updatedProgress : list MilestoneProgress.t)
  (user : option AuthUser.t) (now : Z) : TaskPatch.t :=
  TaskPatch.mk None None None None None None None None None None None None
    None None None None None None None None None (Some updatedProgress)
    (Some now) (userIdOf user).

Definition statusUpdate (newStatus : TaskStatus) (user : option AuthUser.t)
  : TaskPatch.t :=
  TaskPatch.mk None None None None None None None None (Some newStatus) None
    None None None None None None None None None None None None None
    (userIdOf user).

Definition transferUpdate (newUserId : string) (user : option AuthUser.t)
  : TaskPatch.t :=
  TaskPatch.mk None None None None None None (Some newUserId) None None None
    None None None None None None None None None None None None None
    (userIdOf user).

Definition assignUpdate (newAssignedUsers : list string)
  (user : option AuthUser.t) (now : Z) : TaskPatch.t :=
  TaskPatch.mk None None None None None None None None None None None None
    None None None None None None None (Some newAssignedUsers) None None
    (Some now) (userIdOf user).

(** The status button the card shows for a task the user may change:
    Start, Complete or Restart. *)
Definition statusButton (task : Task.t) : option TaskStatus :=
  match Task.status task with
  | pending => Some in_progress
  | in_progress => Some completed
  | rejected => Some pending
  | _ => None
  end.

Section TaskManagement.

Context {host : Host}.

(** The signed-in user, [null] before the sign-in. *)
Variable user : option AuthUser.t.

Definition handleMilestoneToggle (snap : Store) (now : Z)
  (taskId milestoneId : string) (completed : bool) (cur : Store) : Store :=
  match findTask (tasks snap) taskId with
  | None => cur
  | Some task =>
      let currentProgress := orEmpty (Task.milestoneProgress task) in
      let updatedProgress :=
        toggledProgress now user currentProgress milestoneId completed in
      updateTask snap now taskId (progressUpdate updatedProgress user now) cur
  end.

(** The click on a milestone of a task card. *)
Definition clickMilestone (snap : Store) (now : Z) (task : Task.t)
  (milestone : Milestone.t) (cur : Store) : Store :=
  if canChangeStatus user task then
    handleMilestoneToggle snap now (Task.id task) (Milestone.id milestone)
      (negb (isCompleted snap task milestone)) cur
  else cur.

Definition handleStatusChange (snap : Store) (now : Z) (confirm : bool)
  (taskId : string) (newStatus : TaskStatus) (cur : Store) : Store :=
  match findTask (tasks snap) taskId with
  | None => cur
  | Some task =>
      if TaskStatus_eqb (Task.status task) completed
         && negb (TaskStatus_eqb newStatus completed)
         && negb (isAdmin user)
      then cur
      else if TaskStatus_eqb newStatus completed && negb confirm
           then cur
           else updateTask snap now taskId (statusUpdate newStatus user) cur
  end.

Definition handleAssignTask (snap : Store) (now : Z)
  (selectedTask : option Task.t) (selectedUsers : list string) (cur : Store)
  : Store :=
  match selectedTask, selectedUsers with
  | None, _ => cur
  | Some _, [] => cur
  | Some task, _ :: _ =>
      let currentAssignedUsers := orEmpty (Task.assignedUsers task) in
      let newAssignedUsers :=
        (currentAssignedUsers ++ selectedUsers)%list in
      updateTask snap now (Task.id task)
        (assignUpdate newAssignedUsers user now) cur
  end.

Definition handleTaskTransfer (snap : Store) (now : Z)
  (transferTaskId newUserId : string) (cur : Store) : Store :=
  if JS.truthy transferTaskId then
    match findTask (tasks snap) transferTaskId with
    | None => cur
    | Some _ =>
        updateTask snap now transferTaskId (transferUpdate newUserId user) cur
    end
  else cur.

End TaskManagement.

(** ** The dashboard ([src/components/Dashboard.tsx]) *)

Record Stats : Type := mkStats {
  totalTasks : nat;
  pendingTasks : nat;
  inProgressTasks : nat;
  completedTasks : nat;
  overdueTests : nat;
  totalUsers : nat;
  totalClients : nat
}.

Definition countIf {A : Type} (p : A -> bool) (l : list A) : nat :=
  List.length (filter p l).

Definition stats (now : Z) (s : Store) : Stats :=
  mkStats
    (List.length (tasks s))
    (countIf (fun t => TaskStatus_eqb (Task.status t) pending) (tasks s))
    (countIf (fun t => TaskStatus_eqb (Task.status t) in_progress) (tasks s))
    (countIf (fun t => TaskStatus_eqb (Task.status t) completed
                       || TaskStatus_eqb (Task.status t) approved) (tasks s))
    (countIf (fun t => (Task.dueDate t <? now)
                       && negb (TaskStatus_eqb (Task.status t) completed)
                       && negb (TaskStatus_eqb (Task.status t) approved))
             (tasks s))
    (countIf (fun u => optStringEqb (User.status u) "active") (users s))
    (countIf Client.isActive (clients s)).

(** ** Sample sessions *)

(** The guest account of the automatic sign-in, and the third default user
    signed in. *)
Definition guestUser (mount : Z) : AuthUser.t :=
  AuthUser.mk "guest-1" "Guest User" "guest@demo.com" "admin" true None None
    mount.

Definition janeSmith : AuthUser.t :=
  AuthUser.mk "3" "Jane Smith" "jane@ca.com" "user" true
    (Some "+1-555-0103") (Some "Tax") 1706745600000.

Definition johnDoe : AuthUser.t :=
  AuthUser.mk "2" "John Doe" "john@ca.com" "user" true
    (Some "+1-555-0102") (Some "Accounting") 1705276800000.

(** The third milestone of the monthly statements. *)
Definition statementsMilestone : Milestone.t :=
  Milestone.mk "3" "Financial Statements" "Generate financial statements"
    (2 # 1) 3.

(** ** Sample form data *)

(** What the user form and the client form submit. *)
Definition newClerk : User.t :=
  User.mk "" "Priya Nair" "priya@ca.com" (Some "+1-555-0104") "user"
    (Some "Audit") (Some "active") 0 None (Some "priya123").

Definition newPartner : User.t :=
  User.mk "" "Omar Haddad" "omar@ca.com" (Some "+1-555-0105") "admin"
    (Some "Management") (Some "active") 0 None (Some "omar123").

Definition newClient : Client.t :=
  Client.mk "" "Delta Traders" "office@delta.example" "+1-555-1003"
    "789 Market Road, City, State 13579" None true 0.

(** A task whose number left the form T###. *)
Definition overflowTask : Task.t :=
  Task.mk "1000" "T1000" "Thousandth filing" "" "1" "1" "2" "1" pending low
    1721001600000 1717977600000 None None (1 # 1) None None false None None
    None None None None.

Definition overflowStore : Store :=
  mkStore [] [overflowTask] [] [] [] [].

(** ** The client page ([src/components/ClientManagement.tsx]) *)

(** The form of the page. *)
Record ClientForm : Type := mkClientForm {
  f_name : string;
  f_email : string;
  f_phone : string;
  f_address : string;
  f_contactPerson : string;
  f_isActive : bool
}.

(** [handleEditClient]: the form filled from a client. *)
Definition handleEditClient (client : Client.t) : ClientForm :=
  mkClientForm (Client.name client) (Client.email client)
    (Client.phone client) (Client.address client)
    (optOrElse (Client.contactPerson client) "") (Client.isActive client).

(** The form as the patch [updateClient] receives. *)
Definition formUpdates (formData : ClientForm) : ClientPatch.t :=
  ClientPatch.mk None (Some (f_name formData)) (Some (f_email formData))
    (Some (f_phone formData)) (Some (f_address formData))
    (Some (f_contactPerson formData)) (Some (f_isActive formData)) None.

Definition handleUpdateClient (selectedClient : option Client.t)
  (formData : ClientForm) (cur : Store) : Store :=
  match selectedClient with
  | None => cur
  | Some client => updateClient (Client.id client) (formUpdates formData) cur
  end.

(** ** Signing in ([src/contexts/AuthContext.tsx]) *)

Module Auth.
Record State : Type := mk {
  user : option AuthUser.t;
  isAuthenticated : bool;
  currentUserSlot : option AuthUser.t
}.
End Auth.

(** [email.split('@')[0]] *)
Fixpoint beforeAt (email : string) : string :=
  match email with
  | EmptyString => EmptyString
  | String c r => if Ascii.eqb c "@" then EmptyString
                  else String c (beforeAt r)
  end.

(** [login]: [random36] is the text of [Math.random().toString(36)].  The
    password is not looked at. *)
Definition login (random36 : string) (now : Z) (email password : string)
  (cur : Auth.State) : Auth.State * bool :=
  let fakeUser :=
    AuthUser.mk ("user-" ++ String.substring 2 7 random36)
      (JS.orElse (beforeAt email) "Guest")
      (JS.orElse email "guest@demo.com") "admin" true None None now in
  (Auth.mk (Some fakeUser) true (Some fakeUser), true).



(** ** The search box of the task page *)

(** [toLowerCase] on the code units a [string] holds: the letters A to Z and
    the capital letters of Latin-1 (192 to 222 without the multiplication
    sign) move up by 32. *)
Definition toLowerChar (c : ascii) : ascii :=
  let n := N_of_ascii c in
  if ((65 <=? n) && (n <=? 90)
      || (192 <=? n) && (n <=? 222) && negb (n =? 215))%N
  then ascii_of_N (n + 32) else c.

Fixpoint toLowerCase (s : string) : string :=
  match s with
  | EmptyString => EmptyString
  | String c r => String (toLowerChar c) (toLowerCase r)
  end.

(** The white space and line ends [trim] removes, among those code units. *)
Definition isSpace (c : ascii) : bool :=
  let n := N_of_ascii c in
  ((9 <=? n) && (n <=? 13) || (n =? 32) || (n =? 160))%N.

Fixpoint trimStart (s : string) : string :=
  match s with
  | EmptyString => EmptyString
  | String c r => if isSpace c then trimStart r else s
  end.

Fixpoint trimEnd (s : string) : string :=
  match s with
  | EmptyString => EmptyString
  | String c r =>
      match trimEnd r with
      | EmptyString => if isSpace c then EmptyString
                       else String c EmptyString
      | r' => String c r'
      end
  end.

Definition trim (s : string) : string := trimEnd (trimStart s).

Definition priorityString (p : Priority) : string :=
  match p with
  | low => "low"
  | medium => "medium"
  | high => "high"
  | urgent => "urgent"
  end.

(** [matchesSearch] of the filter of the task page. *)
Definition matchesSearch (searchTerm : string) (task : Task.t) : bool :=
  let searchLower := trim (toLowerCase searchTerm) in
  let taskNumber := JS.orElse (Task.taskNumber task) "" in
  (searchTerm =? "")%string
  || JS.includes (toLowerCase (Task.title task)) searchLower
  || JS.includes (toLowerCase (Task.description task)) searchLower
  || JS.includes (toLowerCase taskNumber) searchLower
  || (String.prefix "t" searchLower
      && JS.includes (toLowerCase taskNumber) searchLower)
  || (String.prefix "t" (toLowerCase taskNumber)
      && JS.includes (JS.substringFrom1 taskNumber) searchLower)
  || (negb (String.prefix "t" searchLower)
      && JS.includes (toLowerCase taskNumber) ("t" ++ searchLower)).

(** The predicate of [filteredTasks]. *)
Definition matchesFilters (statusFilter priorityFilter searchTerm : string)
  (task : Task.t) : bool :=
  let matchesStatus :=
    (statusFilter =? "all")%string
    || (statusString (Task.status task) =? statusFilter)%string in
  let matchesPriority :=
    (priorityFilter =? "all")%string
    || (priorityString (Task.priority task) =? priorityFilter)%string in
  matchesStatus && matchesPriority && matchesSearch searchTerm task.

(** * Properties *)

(** ** Task numbers *)

Lemma digitValue_nonneg (c : ascii) :
  JS.isDigit c = true -> 0 <= JS.digitValue c <= 9.
Proof.
  unfold JS.isDigit, JS.digitValue. intros H.
  apply andb_true_iff in H. destruct H as [H1 H2].
  apply N.leb_le in H1. apply N.leb_le in H2. lia.
Qed.

Lemma suffixOf_bounds (num : string) (n : Z) :
  suffixOf num = Some n -> 0 <= n < 1000.
Proof.
  unfold suffixOf.
  destruct num as [|t [|a [|b [|c [|d r]]]]]; try discriminate.
  destruct (Ascii.eqb t "T"); cbn [andb]; try discriminate.
  destruct (JS.isDigit a) eqn:Ha; cbn [andb]; try discriminate.
  destruct (JS.isDigit b) eqn:Hb; cbn [andb]; try discriminate.
  destruct (JS.isDigit c) eqn:Hc; cbn [andb]; try discriminate.
  intros H.
  assert (E : 100 * JS.digitValue a + 10 * JS.digitValue b + JS.digitValue c
              = n) by congruence.
  apply digitValue_nonneg in Ha, Hb, Hc. lia.
Qed.

Lemma parseInt_three_digits (a b c : ascii) :
  JS.isDigit a = true -> JS.isDigit b = true -> JS.isDigit c = true ->
  JS.parseInt (String a (String b (String c EmptyString))) =
  Some (100 * JS.digitValue a + 10 * JS.digitValue b + JS.digitValue c).
Proof.
  intros Ha Hb Hc. unfold JS.parseInt. rewrite Ha.
  cbn [JS.parseDigits]. rewrite Ha, Hb, Hc. f_equal. lia.
Qed.

(** The filter and the two maps of [generateTaskNumber] keep, of every task
    number, its suffix in the sense of [suffixOf]. *)
Lemma parse_matches_suffixOf (num : string) :
  (if JS.truthy num && JS.test_T3 num
   then match JS.parseInt (JS.substringFrom1 num) with
        | Some n => [n]
        | None => []
        end
   else []) =
  match suffixOf num with
  | Some n => [n]
  | None => []
  end.
Proof.
  destruct num as [|t [|a [|b [|c [|d r]]]]]; try reflexivity;
    try (cbn [JS.truthy JS.test_T3 suffixOf andb]; reflexivity).
  cbn [JS.truthy JS.test_T3 suffixOf JS.substringFrom1 andb].
  destruct (Ascii.eqb t "T"); cbn [andb]; try reflexivity.
  destruct (JS.isDigit a) eqn:Ha; cbn [andb]; try reflexivity.
  destruct (JS.isDigit b) eqn:Hb; cbn [andb]; try reflexivity.
  destruct (JS.isDigit c) eqn:Hc; cbn [andb]; try reflexivity.
  rewrite parseInt_three_digits by assumption. reflexivity.
Qed.

Lemma existingNumbers_suffixes (l : list Task.t) :
  existingNumbers l = suffixes l.
Proof.
  unfold existingNumbers, suffixes.
  induction l as [|t l IH]; [reflexivity|].
  cbn [map filter flat_map].
  rewrite <- parse_matches_suffixOf, <- IH.
  destruct (JS.truthy (Task.taskNumber t) && JS.test_T3 (Task.taskNumber t));
    reflexivity.
Qed.

Lemma suffixes_bounds (l : list Task.t) (n : Z) :
  In n (suffixes l) -> 0 <= n < 1000.
Proof.
  unfold suffixes. rewrite in_flat_map. intros [t [_ H]].
  destruct (suffixOf (Task.taskNumber t)) as [m|] eqn:E; [|contradiction].
  destruct H as [<-|[]]. exact (suffixOf_bounds _ _ E).
Qed.

Lemma fold_left_max_nonneg (r : list Z) (x : Z) :
  (forall y, In y r -> 0 <= y) -> 0 <= x ->
  fold_left Z.max r x = Z.max x (fold_right Z.max 0 r).
Proof.
  revert x. induction r as [|y r IH]; intros x Hr Hx; cbn [fold_left fold_right].
  - lia.
  - rewrite IH.
    + lia.
    + intros z Hz. apply Hr. now right.
    + specialize (Hr y (or_introl eq_refl)). lia.
Qed.

(** The number computed by the source is the number of the specification's
    rule. *)
Lemma nextNumber_refines (l : list Task.t) :
  nextNumber l = specNextNumber l.
Proof.
  unfold nextNumber, specNextNumber. rewrite existingNumbers_suffixes.
  pose proof (suffixes_bounds l) as Hb.
  destruct (suffixes l) as [|x r]; [reflexivity|].
  cbn [List.length Nat.ltb Nat.leb JS.max_list].
  rewrite fold_left_max_nonneg.
  - reflexivity.
  - intros y Hy. apply (Hb y). now right.
  - apply (Hb x). now left.
Qed.

Lemma fold_right_max_ge (l : list Z) (n : Z) :
  In n l -> n <= fold_right Z.max 0 l.
Proof.
  induction l as [|x l IH]; cbn [fold_right In]; [contradiction|].
  intros [->|H]; [lia|]. specialize (IH H). lia.
Qed.

(** The next number is above the suffix of every task number of the form
    T###. *)
Lemma nextNumber_exceeds (l : list Task.t) (t : Task.t) (n : Z) :
  In t l -> suffixOf (Task.taskNumber t) = Some n -> n < nextNumber l.
Proof.
  intros Ht Hn. rewrite nextNumber_refines. unfold specNextNumber.
  assert (In n (suffixes l)) as Hin.
  { unfold suffixes. apply in_flat_map. exists t. split; [exact Ht|].
    rewrite Hn. now left. }
  apply fold_right_max_ge in Hin. lia.
Qed.

Lemma rendersWell_below_1000 : forallb rendersWell (seq 0 1000) = true.
Proof. vm_compute. reflexivity. Qed.

(** A number below 1000 renders as T### and reads back as itself. *)
Lemma renderTaskNumber_suffixOf (n : Z) :
  0 <= n < 1000 -> suffixOf (renderTaskNumber n) = Some n.
Proof.
  intros Hn.
  pose proof rendersWell_below_1000 as H.
  rewrite forallb_forall in H.
  specialize (H (Z.to_nat n)).
  assert (In (Z.to_nat n) (seq 0 1000)) as Hin by (apply in_seq; lia).
  specialize (H Hin). unfold rendersWell in H.
  rewrite Z2Nat.id in H by lia.
  destruct (suffixOf (renderTaskNumber n)) as [m|]; [|discriminate].
  apply Z.eqb_eq in H. now subst.
Qed.


(** ** The store under the generator *)

Lemma skipn_length_app {A : Type} (l r : list A) :
  skipn (List.length l) (l ++ r)%list = r.
Proof. induction l as [|x l IH]; [reflexivity|exact IH]. Qed.

Lemma truthy_nonempty (s : string) : JS.truthy s = true <-> s <> "".
Proof.
  destruct s; cbn [JS.truthy]; split; intro H; try discriminate;
    try reflexivity; try congruence.
Qed.

Lemma string_eqb_false (a b : string) : a <> b -> (a =? b)%string = false.
Proof. intros H. now apply String.eqb_neq. Qed.

Section Generator.

Context {host : Host}.

(** A call of the generator touches the notifications only, and appends. *)
Lemma generateTaskNotification_appends snap now task type cur :
  generateTaskNotification snap now task type cur =
  mkStore (users cur) (tasks cur) (clients cur) (taskTypes cur)
    (chatMessages cur)
    (notifications cur ++ taskNotifications snap now task type)%list.
Proof.
  unfold generateTaskNotification, taskNotifications.
  destruct (JS.truthy _); destruct cur; cbn.
  - reflexivity.
  - now rewrite app_nil_r.
Qed.

Lemma overdue_loop_appends snap now (l : list Task.t) cur :
  fold_left
    (fun c task =>
       if isOverdue now task then
         if negb (hasOverdueNotification (notifications snap) task)
         then generateTaskNotification snap now task ev_overdue c
         else c
       else c) l cur =
  mkStore (users cur) (tasks cur) (clients cur) (taskTypes cur)
    (chatMessages cur)
    (notifications cur ++ flat_map (overdueNotifications snap now) l)%list.
Proof.
  revert cur. induction l as [|t l IH]; intros cur; cbn [fold_left flat_map].
  - destruct cur; cbn. now rewrite app_nil_r.
  - rewrite IH. unfold overdueNotifications at 2.
    destruct (isOverdue now t); cbn [andb].
    + destruct (negb (hasOverdueNotification (notifications snap) t)).
      * rewrite generateTaskNotification_appends. cbn.
        now rewrite <- app_assoc.
      * reflexivity.
    + reflexivity.
Qed.

(** The scan leaves every collection but the notifications alone and
    appends, task by task, what the loop body emits. *)
Lemma checkOverdueTasks_appends snap now cur :
  checkOverdueTasks snap now cur =
  mkStore (users cur) (tasks cur) (clients cur) (taskTypes cur)
    (chatMessages cur)
    (notifications cur
       ++ flat_map (overdueNotifications snap now) (tasks snap))%list.
Proof. apply overdue_loop_appends. Qed.

Lemma emitted_checkOverdueTasks s now :
  emittedBetween s (checkOverdueTasks s now s) =
  flat_map (overdueNotifications s now) (tasks s).
Proof.
  unfold emittedBetween. rewrite checkOverdueTasks_appends. cbn.
  apply skipn_length_app.
Qed.




End Generator.

(** ** The overdue scan *)

Section OverdueScan.

Context {host : Host}.



End OverdueScan.


(** The same scan emits nothing for a task nobody is assigned to, and one
    notification for each of two tasks that share an id. *)
Example scan_skips_unassigned_task :
  emittedBetween unassignedStore
    (@checkOverdueTasks enUS unassignedStore august1 unassignedStore) = [].
Proof. reflexivity. Qed.

Example scan_emits_per_task_not_per_id :
  map Notification.taskId
    (emittedBetween twinStore
       (@checkOverdueTasks enUS twinStore august1 twinStore))
  = [Some "7"; Some "7"].
Proof. reflexivity. Qed.


(** ** Milestone synchronisation *)

Lemma notifyOne_tasks now name (acc : list string * Store) (u : string) :
  tasks (snd (notifyOne now name acc u)) = tasks (snd acc).
Proof.
  unfold notifyOne. destruct acc as [seen c].
  destruct (has seen u); reflexivity.
Qed.

Lemma notifyAll_tasks now name (l : list string) (acc : list string * Store) :
  tasks (snd (fold_left (notifyOne now name) l acc)) = tasks (snd acc).
Proof.
  revert acc. induction l as [|u l IH]; intros acc; cbn [fold_left].
  - reflexivity.
  - rewrite IH. apply notifyOne_tasks.
Qed.

(** Telling the users about new milestones does not touch the tasks. *)
Lemma notifyMilestoneUpdates_tasks snap now id name cur :
  tasks (notifyMilestoneUpdates snap now id name cur) = tasks cur.
Proof.
  unfold notifyMilestoneUpdates.
  change (tasks cur) with (tasks (snd (@nil string, cur))).
  generalize (@nil string, cur).
  induction (filter _ (tasks snap)) as [|t l IH]; intros acc; cbn [fold_left].
  - reflexivity.
  - rewrite IH.
    destruct (Task.assignedUsers t) as [us|].
    + rewrite notifyAll_tasks.
      destruct (JS.truthy _); [apply notifyOne_tasks|reflexivity].
    + destruct (JS.truthy _); [apply notifyOne_tasks|reflexivity].
Qed.

Lemma milestoneExists_spec (ms : list Milestone.t) (p : MilestoneProgress.t) :
  milestoneExists ms p = true <->
  exists m, In m ms /\ Milestone.id m = MilestoneProgress.milestoneId p.
Proof.
  unfold milestoneExists. rewrite existsb_exists.
  split; intros [m [Hm E]]; exists m; split; try exact Hm.
  - now apply String.eqb_eq.
  - now apply String.eqb_eq.
Qed.



(** The third task with progress on its first and third milestones; dropping
    the third milestone from the task type leaves the first entry only. *)
Example prune_third_milestone :
  let s := @updateTask enUS (initialStore august1) august1 "3" progressPatch
             (initialStore august1) in
  map (fun t => map MilestoneProgress.milestoneId
                    (orEmpty (Task.milestoneProgress t)))
      (tasks (updateTaskType s august1 "3" milestonesPatch s))
  = [[]; []; ["1"]].
Proof. reflexivity. Qed.

(** ** Updating and deleting a task *)

Lemma find_absent {A : Type} (f : A -> bool) (l : list A) :
  (forall x, In x l -> f x = false) -> find f l = None.
Proof.
  induction l as [|x l IH]; intros H; cbn [find]; [reflexivity|].
  rewrite (H x (or_introl eq_refl)). apply IH.
  intros y Hy. apply H. now right.
Qed.

Lemma filter_all {A : Type} (f : A -> bool) (l : list A) :
  (forall x, In x l -> f x = true) -> filter f l = l.
Proof.
  induction l as [|x l IH]; intros H; cbn [filter]; [reflexivity|].
  rewrite (H x (or_introl eq_refl)). f_equal. apply IH.
  intros y Hy. apply H. now right.
Qed.

Lemma id_absent (l : list Task.t) (id : string) :
  ~ In id (map Task.id l) ->
  forall t, In t l -> (Task.id t =? id)%string = false.
Proof.
  intros Hn t Ht. apply String.eqb_neq. intros E. apply Hn.
  rewrite <- E. now apply in_map.
Qed.

Lemma findTask_id (l : list Task.t) (id : string) (t : Task.t) :
  findTask l id = Some t -> In t l /\ Task.id t = id.
Proof.
  unfold findTask. intros H. apply find_some in H.
  destruct H as [Hin E]. split; [exact Hin|]. now apply String.eqb_eq.
Qed.

Lemma statusChanged_spec (original : Task.t) (updates : TaskPatch.t) :
  (forall st, TaskPatch.status updates = Some st ->
              st <> Task.status original ->
              statusChanged original updates = Some st)
  /\ (TaskPatch.status updates = None
      \/ TaskPatch.status updates = Some (Task.status original) ->
      statusChanged original updates = None).
Proof.
  unfold statusChanged. split.
  - intros st -> Hne.
    destruct st, (Task.status original); try reflexivity; congruence.
  - intros [->| ->]; [reflexivity|].
    destruct (Task.status original); reflexivity.
Qed.

Section UpdateTask.

Context {host : Host}.

(** The tasks after [updateTask] found its task. *)
Lemma updateTask_tasks s now id updates original cur :
  findTask (tasks s) id = Some original ->
  tasks (updateTask s now id updates cur) =
  map (fun task => if (Task.id task =? id)%string
                   then updatedTaskOf s now original updates else task)
      (tasks cur).
Proof.
  intros H. unfold updateTask. rewrite H.
  destruct (TaskPatch.status updates) as [[]|];
    try rewrite generateTaskNotification_appends; reflexivity.
Qed.

(** The notifications after [updateTask] found its task: whenever the
    patch has a status, changed or not, one call of the generator. *)
Lemma updateTask_notifications s now id updates original :
  findTask (tasks s) id = Some original ->
  notifications (updateTask s now id updates s) =
  (notifications s ++
     match TaskPatch.status updates with
     | Some completed =>
         taskNotifications s now (updatedTaskOf s now original updates)
           ev_completed
     | Some _ =>
         taskNotifications s now (updatedTaskOf s now original updates)
           ev_updated
     | None => []
     end)%list.
Proof.
  intros H. unfold updateTask. rewrite H.
  destruct (TaskPatch.status updates) as [[]|];
    try rewrite generateTaskNotification_appends; cbn;
    try reflexivity.
  now rewrite app_nil_r.
Qed.

(** C5, as the code has it: the task found by [updateTask] gets, when the
    patch has a status that differs from its own, its former activity log
    with one entry appended that describes the transition, whatever log the
    patch carries; when the status is missing or the same, it gets the log
    of the patch if the patch has one and keeps its own otherwise. *)
Theorem C5_updateTask_activityLog (s : Store) (now : Z) (id : string)
  (updates : TaskPatch.t) (original : Task.t) (i : nat) :
  findTask (tasks s) id = Some original ->
  nth_error (tasks s) i = Some original ->
  let s' := updateTask s now id updates s in
  exists updated,
    nth_error (tasks s') i = Some updated
    /\ (forall st,
           TaskPatch.status updates = Some st ->
           st <> Task.status original ->
           exists entry,
             Task.activityLog updated =
             Some (orEmpty (Task.activityLog original) ++ [entry])%list
             /\ ActivityEntry.action entry =
                "Status changed from " ++ statusText (Task.status original)
                  ++ " to " ++ statusText st
             /\ ActivityEntry.userId entry =
                optOrElse (TaskPatch.updatedById updates)
                          (Task.assignedById original)
             /\ ActivityEntry.timestamp entry = now)
    /\ (TaskPatch.status updates = None
        \/ TaskPatch.status updates = Some (Task.status original) ->
        Task.activityLog updated =
        match TaskPatch.activityLog updates with
        | Some l => Some l
        | None => Task.activityLog original
        end).
Proof.
  intros Hfind Hi s'.
  destruct (findTask_id _ _ _ Hfind) as [_ Eid].
  destruct (statusChanged_spec original updates) as [Hch Hsame].
  exists (updatedTaskOf s now original updates). split.
  - subst s'. rewrite (updateTask_tasks _ _ _ _ _ _ Hfind).
    rewrite nth_error_map, Hi. cbn [option_map].
    now rewrite Eid, String.eqb_refl.
  - split.
    + intros st Hst Hne.
      exists (activityEntryOf s now original updates st).
      unfold updatedTaskOf. rewrite (Hch st Hst Hne).
      repeat split.
    + intros Hno. unfold updatedTaskOf. rewrite (Hsame Hno).
      cbn [mergeTask Task.activityLog]. unfold patchedOpt.
      destruct (TaskPatch.activityLog updates); reflexivity.
Qed.

(** C6: [updateTask] and [deleteTask] with an id that no task has return
    the store they were given: every collection is as before and no
    notification was added. *)
Theorem C6_absent_id_is_noop (s : Store) (now : Z) (id : string)
  (updates : TaskPatch.t) :
  ~ In id (map Task.id (tasks s)) ->
  updateTask s now id updates s = s /\ deleteTask id s = s.
Proof.
  intros Hn. pose proof (id_absent _ _ Hn) as Hall. split.
  - unfold updateTask, findTask. now rewrite (find_absent _ _ Hall).
  - unfold deleteTask, setTasks. destruct s as [us ts cs tts ms ns].
    cbn in *. f_equal. apply filter_all.
    intros t Ht. now rewrite (Hall t Ht).
Qed.

End UpdateTask.

Example statusText_values :
  map statusText [pending; in_progress; completed; approved; rejected]
  = ["pending"; "in progress"; "completed"; "approved"; "rejected"].
Proof. reflexivity. Qed.

(** C4: the third task of the first render is in progress.  A patch that
    sets the status it already has leaves the activity log alone and still
    sends "Task updated" to the assignee; completing it twice sends
    "Task completed" to the assigner both times. *)
Theorem C4_unchanged_status_still_notifies :
  let s := initialStore august1 in
  let s1 := @updateTask enUS s august1 "3" inProgressPatch s in
  let s2 := @updateTask enUS s1 august1 "3" completedPatch s1 in
  let s3 := @updateTask enUS s2 august1 "3" completedPatch s2 in
  Task.status task3 = in_progress
  /\ map Task.activityLog (tasks s1) = map Task.activityLog (tasks s)
  /\ map (fun n => (Notification.title n, Notification.userId n))
         (emittedBetween s s1) = [("Task updated", "3")]
  /\ map Task.status (tasks s2) = [pending; pending; completed]
  /\ map Task.activityLog (tasks s3) = map Task.activityLog (tasks s2)
  /\ map (fun n => (Notification.title n, Notification.userId n))
         (emittedBetween s2 s3) = [("Task completed", "1")].
Proof. vm_compute. repeat split. Qed.

Lemma C5_updateTask_activityLog_witness :
  let s := initialStore august1 in
  let s' := @updateTask enUS s august1 "3" completedPatch s in
  exists updated,
    nth_error (tasks s') 2 = Some updated
    /\ (forall st,
           TaskPatch.status completedPatch = Some st ->
           st <> Task.status task3 ->
           exists entry,
             Task.activityLog updated =
             Some (orEmpty (Task.activityLog task3) ++ [entry])%list
             /\ ActivityEntry.action entry =
                "Status changed from " ++ statusText (Task.status task3)
                  ++ " to " ++ statusText st
             /\ ActivityEntry.userId entry =
                optOrElse (TaskPatch.updatedById completedPatch)
                          (Task.assignedById task3)
             /\ ActivityEntry.timestamp entry = august1)
    /\ (TaskPatch.status completedPatch = None
        \/ TaskPatch.status completedPatch = Some (Task.status task3) ->
        Task.activityLog updated =
        match TaskPatch.activityLog completedPatch with
        | Some l => Some l
        | None => Task.activityLog task3
        end).
Proof.
  apply (@C5_updateTask_activityLog enUS (initialStore august1) august1 "3"
           completedPatch task3 2).
  - reflexivity.
  - reflexivity.
Defined.

(** The claim as first stated, with "the activity log is unchanged" for a
    patch without a new status, fails for a patch that carries an activity
    log of its own: the merge replaces the log. *)
Lemma C5_patch_replaces_activityLog :
  ~ (forall (host : Host) (s : Store) (now : Z) (id : string)
            (updates : TaskPatch.t) (original : Task.t) (i : nat),
        findTask (tasks s) id = Some original ->
        nth_error (tasks s) i = Some original ->
        let s' := updateTask s now id updates s in
        exists updated,
          nth_error (tasks s') i = Some updated
          /\ (forall st,
                 TaskPatch.status updates = Some st ->
                 st <> Task.status original ->
                 exists entry,
                   Task.activityLog updated =
                   Some (orEmpty (Task.activityLog original) ++ [entry])%list)
          /\ (TaskPatch.status updates = None
              \/ TaskPatch.status updates = Some (Task.status original) ->
              Task.activityLog updated = Task.activityLog original)).
Proof.
  intros H.
  destruct (H enUS (initialStore august1) august1 "3" logPatch task3 2%nat
              eq_refl eq_refl) as [updated [Hu [_ Hsame]]].
  specialize (Hsame (or_introl eq_refl)).
  vm_compute in Hu. injection Hu as <-. discriminate Hsame.
Qed.

Lemma C6_absent_id_is_noop_witness :
  @updateTask enUS (initialStore august1) august1 "99" completedPatch
    (initialStore august1) = initialStore august1
  /\ deleteTask "99" (initialStore august1) = initialStore august1.
Proof.
  apply (@C6_absent_id_is_noop enUS (initialStore august1) august1 "99"
           completedPatch).
  cbn. intuition discriminate.
Defined.

(** ** Chat messages *)

Lemma substring0_all (n : nat) (s : string) :
  (String.length s <= n)%nat -> JS.substring0 n s = s.
Proof.
  unfold JS.substring0. revert n.
  induction s as [|c s IH]; intros [|n] H; cbn in *; try reflexivity; try lia.
  f_equal. apply IH. lia.
Qed.

Lemma substring0_length (n : nat) (s : string) :
  (n <= String.length s)%nat -> String.length (JS.substring0 n s) = n.
Proof.
  unfold JS.substring0. revert n.
  induction s as [|c s IH]; intros [|n] H; cbn in *; try reflexivity; try lia.
  f_equal. apply IH. lia.
Qed.

(** The body of a message notification: the whole message when it has at
    most fifty characters, and otherwise its first fifty characters followed
    by three dots. *)
Lemma messagePreview_cases (senderName message : string) :
  ((String.length message <= 50)%nat ->
   messagePreview senderName message = senderName ++ ": " ++ message)
  /\ ((50 < String.length message)%nat ->
      messagePreview senderName message =
      senderName ++ ": " ++ JS.substring0 50 message ++ "..."
      /\ String.length (JS.substring0 50 message) = 50%nat).
Proof.
  unfold messagePreview. split; intros H.
  - rewrite substring0_all by exact H.
    apply Nat.ltb_ge in H. rewrite H.
    f_equal. f_equal.
    induction message as [|c m IH]; [reflexivity|].
    cbn. f_equal. clear. induction m; cbn; [reflexivity|now f_equal].
  - split; [|apply substring0_length; lia].
    apply Nat.ltb_lt in H. now rewrite H.
Qed.

Lemma message_loop_appends now (d : string -> NotificationData)
  (l : list string) (cur : Store) :
  fold_left
    (fun c userId =>
       if JS.truthy userId then addNotification now (d userId) c else c)
    l cur =
  mkStore (users cur) (tasks cur) (clients cur) (taskTypes cur)
    (chatMessages cur)
    (notifications cur
       ++ flat_map (fun userId => if JS.truthy userId
                                  then [stamped now (d userId)] else []) l)
    %list.
Proof.
  revert cur. induction l as [|u l IH]; intros cur; cbn [fold_left flat_map].
  - destruct cur; cbn. now rewrite app_nil_r.
  - rewrite IH. destruct (JS.truthy u); cbn.
    + now rewrite <- app_assoc.
    + reflexivity.
Qed.

(** What [addChatMessage] appends to the notifications when the task is
    found. *)
Lemma emitted_addChatMessage s now messageData task :
  findTask (tasks s) (ChatMessage.taskId messageData) = Some task ->
  emittedBetween s (addChatMessage s now messageData s) =
  flat_map
    (fun userId =>
       if JS.truthy userId
       then [stamped now
               (messageNotificationData task
                  (senderNameOf s messageData)
                  messageData userId)]
       else [])
    (filter (fun id => negb (id =? ChatMessage.userId messageData)%string)
            [Task.assignedToId task; Task.assignedById task]).
Proof.
  intros Hfind. unfold emittedBetween, addChatMessage.
  unfold generateMessageNotification.
  cbn [withMessageId ChatMessage.taskId ChatMessage.userId
       ChatMessage.message].
  rewrite Hfind. rewrite message_loop_appends.
  cbn [notifications setChatMessages].
  rewrite skipn_length_app.
  apply flat_map_ext. intros u.
  destruct (JS.truthy u); reflexivity.
Qed.

(** C7, as the code has it: when a task has the message's taskId, each of
    its assignedToId and assignedById that is not empty and differs from the
    sender's userId receives a message notification titled
    "New message in <title>", whose body is the sender's name as the user
    list has it ("Unknown User" when it has none), a colon and a blank, and
    the first fifty characters of the message, followed by three dots exactly
    when the message is longer; every notification emitted is one of these,
    so the sender gets none; and nothing is emitted when no task has the
    taskId. *)
Theorem C7_message_notifications (s : Store) (now : Z)
  (messageData : ChatMessage.t) :
  let s' := addChatMessage s now messageData s in
  let sender := ChatMessage.userId messageData in
  let text := ChatMessage.message messageData in
  (forall task,
      findTask (tasks s) (ChatMessage.taskId messageData) = Some task ->
      let participants := [Task.assignedToId task; Task.assignedById task] in
      let body :=
        JS.nameOr User.name (findUser (users s) sender) "Unknown User"
          ++ ": " ++ String.substring 0 50 text
          ++ (if (50 <? String.length text)%nat then "..." else "") in
      (forall uid,
          In uid participants -> uid <> sender -> uid <> "" ->
          exists n,
            In n (emittedBetween s s') /\ Notification.userId n = uid)
      /\ (forall n,
             In n (emittedBetween s s') ->
             Notification.type n = type_message
             /\ Notification.title n = "New message in " ++ Task.title task
             /\ Notification.message n = body
             /\ Notification.taskId n = Some (Task.id task)
             /\ Notification.isRead n = false
             /\ In (Notification.userId n) participants
             /\ Notification.userId n <> sender
             /\ Notification.userId n <> ""))
  /\ (~ In (ChatMessage.taskId messageData) (map Task.id (tasks s)) ->
      notifications s' = notifications s).
Proof.
  intros s' sender text. split.
  - intros task Hfind participants body.
    subst s'. rewrite (emitted_addChatMessage _ _ _ _ Hfind).
    split.
    + intros uid Hin Hs He.
      exists (stamped now
                (messageNotificationData task (senderNameOf s messageData)
                   messageData uid)).
      split; [|reflexivity].
      apply in_flat_map. exists uid. split.
      * apply filter_In. split; [exact Hin|].
        apply negb_true_iff. now apply String.eqb_neq.
      * apply truthy_nonempty in He. rewrite He. now left.
    + intros n Hn. apply in_flat_map in Hn.
      destruct Hn as [uid [Hu Hn]].
      apply filter_In in Hu. destruct Hu as [Hin Hs].
      apply negb_true_iff, String.eqb_neq in Hs.
      destruct (JS.truthy uid) eqn:He; [|contradiction].
      destruct Hn as [<-|[]].
      apply truthy_nonempty in He.
      cbn. repeat split; assumption.
  - intros Hn. subst s'. unfold addChatMessage, generateMessageNotification.
    cbn [withMessageId ChatMessage.taskId].
    unfold findTask.
    now rewrite (find_absent _ _ (id_absent _ _ Hn)).
Qed.

Lemma C7_message_notifications_witness :
  exists n,
    In n (emittedBetween (initialStore august1)
            (addChatMessage (initialStore august1) august1 longMessage
               (initialStore august1)))
    /\ Notification.userId n = "2".
Proof.
  apply (proj1 (proj1 (C7_message_notifications (initialStore august1)
                         august1 longMessage) task1 eq_refl) "2").
  - cbn. tauto.
  - discriminate.
  - discriminate.
Defined.

Example long_message_notification :
  map (fun n => (Notification.userId n, Notification.title n,
                 Notification.message n))
      (emittedBetween (initialStore august1)
         (addChatMessage (initialStore august1) august1 longMessage
            (initialStore august1)))
  = [("2", "New message in Tax Return Preparation",
      "Admin User: The client has sent the missing statements this mo...")].
Proof. reflexivity. Qed.

(** The claim as first stated promises a notification to the assigner
    whenever the assigner's id differs from the sender's.  On a task whose
    [assignedById] is empty, a message of the assignee reaches nobody. *)
Lemma C7_empty_assigner_not_notified :
  ~ (forall (s : Store) (now : Z) (messageData : ChatMessage.t)
            (task : Task.t) (uid : string),
        findTask (tasks s) (ChatMessage.taskId messageData) = Some task ->
        In uid [Task.assignedToId task; Task.assignedById task] ->
        uid <> ChatMessage.userId messageData ->
        exists n,
          In n (emittedBetween s (addChatMessage s now messageData s))
          /\ Notification.userId n = uid
          /\ Notification.title n = "New message in " ++ Task.title task).
Proof.
  intros H.
  destruct (H orphanStore (august1 + 60000) orphanMessage
              (nth 3 (tasks orphanStore) task1) "") as [n [Hn _]].
  - reflexivity.
  - cbn. tauto.
  - discriminate.
  - vm_compute in Hn. exact Hn.
Qed.

(** ** Reading notifications *)

(** C8: [markAllNotificationsAsRead] keeps the notifications in place and in
    number; those of the user come out with [isRead] set and nothing else
    changed, the others come out as they were; the other collections are
    untouched; and a second call returns the store of the first. *)
Theorem C8_markAllNotificationsAsRead_idempotent (s : Store)
  (userId : string) :
  let s' := markAllNotificationsAsRead userId s in
  List.length (notifications s') = List.length (notifications s)
  /\ Forall2
       (fun n n' =>
          Notification.id n' = Notification.id n
          /\ Notification.type n' = Notification.type n
          /\ Notification.title n' = Notification.title n
          /\ Notification.message n' = Notification.message n
          /\ Notification.timestamp n' = Notification.timestamp n
          /\ Notification.userId n' = Notification.userId n
          /\ Notification.taskId n' = Notification.taskId n
          /\ Notification.priority n' = Notification.priority n
          /\ Notification.isRead n' =
             if (Notification.userId n =? userId)%string then true
             else Notification.isRead n)
       (notifications s) (notifications s')
  /\ (users s', tasks s', clients s', taskTypes s', chatMessages s')
     = (users s, tasks s, clients s, taskTypes s, chatMessages s)
  /\ markAllNotificationsAsRead userId s' = s'.
Proof.
  intros s'. subst s'. unfold markAllNotificationsAsRead, setNotifications.
  cbn [notifications users tasks clients taskTypes chatMessages].
  split; [apply length_map|]. split; [|split; [reflexivity|]].
  - induction (notifications s) as [|n l IH]; cbn [map]; constructor.
    + destruct (Notification.userId n =? userId)%string;
        cbn; repeat split; reflexivity.
    + exact IH.
  - f_equal. rewrite map_map. apply map_ext. intros n.
    destruct (Notification.userId n =? userId)%string eqn:E.
    + cbn [withIsRead Notification.userId]. now rewrite E.
    + now rewrite E.
Qed.

(** ** Creating a task *)

Section AddTask.

Context {host : Host}.

(** C9: [addTask] with a non-empty [assignedToId] appends the new task and
    exactly two notifications, "New task created" and then
    "Task assigned to you", both addressed to the assignee and both with
    the id and the priority of the new task. *)
Theorem C9_addTask_two_notifications (s : Store) (now : Z)
  (taskData : Task.t) :
  Task.assignedToId taskData <> "" ->
  let s' := addTask s now taskData s in
  exists newTask n1 n2,
    tasks s' = (tasks s ++ [newTask])%list
    /\ Task.assignedToId newTask = Task.assignedToId taskData
    /\ Task.priority newTask = Task.priority taskData
    /\ notifications s' = (notifications s ++ [n1; n2])%list
    /\ Notification.title n1 = "New task created"
    /\ Notification.title n2 = "Task assigned to you"
    /\ Notification.userId n1 = Task.assignedToId taskData
    /\ Notification.userId n2 = Task.assignedToId taskData
    /\ Notification.taskId n1 = Some (Task.id newTask)
    /\ Notification.taskId n2 = Some (Task.id newTask)
    /\ Notification.priority n1 = Some (Task.priority newTask)
    /\ Notification.priority n2 = Some (Task.priority newTask).
Proof.
  intros Hto s'. apply truthy_nonempty in Hto.
  exists (newTaskOf s now taskData).
  exists (stamped now
            (taskNotificationData s (newTaskOf s now taskData) ev_created)).
  exists (stamped now
            (taskNotificationData s (newTaskOf s now taskData) ev_assigned)).
  subst s'. unfold addTask.
  rewrite !generateTaskNotification_appends.
  unfold taskNotifications.
  cbn [taskNotificationData d_userId newTaskOf Task.assignedToId].
  rewrite Hto.
  cbn [tasks notifications setTasks].
  rewrite <- app_assoc.
  repeat split.
Qed.

(** C10: the task [addTask] stores carries the one-element list of the
    assignee when the form data has no [assignedUsers], and the list of the
    form data, empty or not, when it has one. *)
Theorem C10_addTask_assignedUsers (s : Store) (now : Z)
  (taskData : Task.t) :
  let s' := addTask s now taskData s in
  exists newTask,
    tasks s' = (tasks s ++ [newTask])%list
    /\ (Task.assignedUsers taskData = None ->
        Task.assignedUsers newTask = Some [Task.assignedToId taskData])
    /\ (forall l,
           Task.assignedUsers taskData = Some l ->
           Task.assignedUsers newTask = Some l).
Proof.
  intros s'. exists (newTaskOf s now taskData).
  subst s'. unfold addTask.
  rewrite !generateTaskNotification_appends.
  cbn [tasks setTasks newTaskOf Task.assignedUsers].
  split; [reflexivity|].
  split; [intros ->; reflexivity|intros l ->; reflexivity].
Qed.

(** The generated number is the one carried by the stored task. *)
Lemma addTask_taskNumber (s : Store) (now : Z) (taskData : Task.t) :
  map Task.taskNumber (tasks (addTask s now taskData s)) =
  (map Task.taskNumber (tasks s) ++ [generateTaskNumber s])%list.
Proof.
  unfold addTask. rewrite !generateTaskNotification_appends.
  cbn [tasks setTasks]. now rewrite map_app.
Qed.

End AddTask.

Lemma C9_addTask_two_notifications_witness :
  let s := initialStore august1 in
  let s' := @addTask enUS s august1 sampleTaskData s in
  exists newTask n1 n2,
    tasks s' = (tasks s ++ [newTask])%list
    /\ Task.assignedToId newTask = Task.assignedToId sampleTaskData
    /\ Task.priority newTask = Task.priority sampleTaskData
    /\ notifications s' = (notifications s ++ [n1; n2])%list
    /\ Notification.title n1 = "New task created"
    /\ Notification.title n2 = "Task assigned to you"
    /\ Notification.userId n1 = Task.assignedToId sampleTaskData
    /\ Notification.userId n2 = Task.assignedToId sampleTaskData
    /\ Notification.taskId n1 = Some (Task.id newTask)
    /\ Notification.taskId n2 = Some (Task.id newTask)
    /\ Notification.priority n1 = Some (Task.priority newTask)
    /\ Notification.priority n2 = Some (Task.priority newTask).
Proof.
  apply (@C9_addTask_two_notifications enUS (initialStore august1) august1
           sampleTaskData).
  discriminate.
Defined.

Lemma C10_addTask_assignedUsers_witness :
  exists newTask,
    tasks (@addTask enUS (initialStore august1) august1 twinTask
             (initialStore august1))
    = (tasks (initialStore august1) ++ [newTask])%list
    /\ Task.assignedUsers newTask = Some [Task.assignedToId twinTask].
Proof.
  destruct (@C10_addTask_assignedUsers enUS (initialStore august1) august1
              twinTask) as [newTask [Et [Hnone _]]].
  exists newTask. split; [exact Et|]. apply Hnone. reflexivity.
Defined.

Example first_task_number :
  map Task.taskNumber
    (tasks (@addTasks enUS (sampleCalls 2) emptyStore)) = ["T001"; "T002"].
Proof. reflexivity. Qed.

(** ** Task numbers along a run of [addTask] calls *)

Lemma fold_right_max_nonneg (l : list Z) : 0 <= fold_right Z.max 0 l.
Proof. induction l as [|x l IH]; cbn [fold_right]; lia. Qed.

Lemma fold_right_max_app (a b : list Z) :
  fold_right Z.max 0 (a ++ b) =
  Z.max (fold_right Z.max 0 a) (fold_right Z.max 0 b).
Proof.
  induction a as [|x a IH]; cbn [app fold_right].
  - pose proof (fold_right_max_nonneg b). lia.
  - rewrite IH. lia.
Qed.

Lemma nextNumber_positive (l : list Task.t) : 1 <= nextNumber l.
Proof.
  rewrite nextNumber_refines. unfold specNextNumber.
  pose proof (fold_right_max_nonneg (suffixes l)). lia.
Qed.

Section TaskNumbers.

Context {host : Host}.

(** While the largest suffix is below 999, the generated task number has
    the form T###, carries the next number and differs from the number of
    every task of the list. *)
Lemma generateTaskNumber_fresh (s : Store) :
  nextNumber (tasks s) < 1000 ->
  suffixOf (generateTaskNumber s) = Some (nextNumber (tasks s)) /\
  forall t, In t (tasks s) -> Task.taskNumber t <> generateTaskNumber s.
Proof.
  intros Hlt. pose proof (nextNumber_positive (tasks s)) as Hge.
  assert (suffixOf (generateTaskNumber s) = Some (nextNumber (tasks s)))
    as Hs by (apply renderTaskNumber_suffixOf; lia).
  split; [exact Hs|].
  intros t Ht E. rewrite <- E in Hs.
  pose proof (nextNumber_exceeds _ _ _ Ht Hs). lia.
Qed.

(** Below 1000, a call of [addTask] moves the next number up by one. *)
Lemma addTask_nextNumber (s : Store) (now : Z) (taskData : Task.t) :
  nextNumber (tasks s) < 1000 ->
  nextNumber (tasks (addTask s now taskData s)) = nextNumber (tasks s) + 1.
Proof.
  intros Hlt. destruct (generateTaskNumber_fresh s Hlt) as [Hs _].
  unfold addTask. rewrite !generateTaskNotification_appends.
  cbn [tasks setTasks].
  rewrite !nextNumber_refines in *. unfold specNextNumber in *.
  unfold suffixes at 1. rewrite flat_map_app. fold (suffixes (tasks s)).
  cbn [flat_map newTaskOf Task.taskNumber]. rewrite Hs, app_nil_r.
  rewrite fold_right_max_app. cbn [fold_right].
  pose proof (fold_right_max_nonneg (suffixes (tasks s))). lia.
Qed.

(** As long as the numbers stay at or below 999, a run of calls made one
    render after the other numbers its tasks consecutively from the next
    number of the starting list: the numbers have the form T###, increase
    by one and so repeat neither each other nor a number already there. *)
Lemma addTasks_taskNumbers (calls : list (Z * Task.t)) (s : Store) :
  nextNumber (tasks s) + Z.of_nat (List.length calls) <= 1000 ->
  map Task.taskNumber (tasks (addTasks calls s)) =
  (map Task.taskNumber (tasks s)
     ++ map (fun i => renderTaskNumber (nextNumber (tasks s) + Z.of_nat i))
            (seq 0 (List.length calls)))%list.
Proof.
  revert s. induction calls as [|c calls IH]; intros s Hle.
  - cbn. now rewrite app_nil_r.
  - cbn [List.length] in Hle.
    change (addTasks (c :: calls) s)
      with (addTasks calls (addTask s (fst c) (snd c) s)).
    rewrite IH; rewrite addTask_nextNumber by lia; [|lia].
    rewrite addTask_taskNumber, <- app_assoc. f_equal.
    cbn [List.length seq map app]. f_equal.
    + unfold generateTaskNumber, renderTaskNumber. now rewrite Z.add_0_r.
    + rewrite <- seq_shift, map_map. apply map_ext.
      intros i. f_equal. lia.
Qed.

(** C1: the task numbers of 1001 successive [addTask] calls on an empty
    task list.  The 999th call yields T999; the 1000th yields T1000, which
    is not of the form T###, and since the scan skips it the 1001st call
    yields T1000 again. *)
Theorem C1_taskNumber_repeats_after_T999 :
  map Task.taskNumber
    (skipn 998 (tasks (addTasks (sampleCalls 1001) emptyStore)))
  = ["T999"; "T1000"; "T1000"].
Proof. vm_compute. reflexivity. Qed.

End TaskNumbers.

(** ** More on the overdue scan *)

Lemma isOverdue_spec now (t : Task.t) :
  isOverdue now t = true <->
  Task.dueDate t < now /\ Task.status t <> completed
  /\ Task.status t <> approved.
Proof.
  unfold isOverdue. rewrite !andb_true_iff, !negb_true_iff, Z.ltb_lt.
  destruct (Task.status t); cbn; intuition congruence.
Qed.

Lemma isOverdue_earlier now now' (t : Task.t) :
  now' <= now -> isOverdue now' t = true -> isOverdue now t = true.
Proof. rewrite !isOverdue_spec. intros H [H1 H2]. split; [lia|exact H2]. Qed.

Lemma flat_map_nil {A B : Type} (f : A -> list B) (l : list A) :
  (forall x, In x l -> f x = []) -> flat_map f l = [].
Proof.
  induction l as [|x l IH]; intros H; [reflexivity|].
  cbn [flat_map]. rewrite (H x (or_introl eq_refl)). apply IH.
  intros y Hy. apply H. now right.
Qed.

Lemma hasOverdueNotification_app l1 l2 (t : Task.t) :
  hasOverdueNotification (l1 ++ l2) t =
  hasOverdueNotification l1 t || hasOverdueNotification l2 t.
Proof. apply existsb_app. Qed.

Section ScanAgain.

Context {host : Host}.

(** What the scan emits for a task is recognised by the scan's own
    duplicate test. *)
Lemma overdueNotifications_recognised snap now (t : Task.t) :
  overdueNotifications snap now t <> [] ->
  hasOverdueNotification (overdueNotifications snap now t) t = true.
Proof.
  unfold overdueNotifications, taskNotifications.
  destruct (_ && _); [|congruence].
  destruct (JS.truthy _); [|congruence].
  intros _. cbn. now rewrite String.eqb_refl.
Qed.

Lemma overdueNotifications_nil_after snap now now' (l : list Task.t)
  (t : Task.t) :
  now' <= now -> In t l ->
  overdueNotifications
    (mkStore (users snap) (tasks snap) (clients snap) (taskTypes snap)
       (chatMessages snap)
       (notifications snap ++ flat_map (overdueNotifications snap now) l))
    now' t = [].
Proof.
  intros Hle Hin. unfold overdueNotifications at 1. cbn [notifications].
  destruct (isOverdue now' t) eqn:Hov; [|reflexivity].
  apply (isOverdue_earlier _ _ _ Hle) in Hov.
  rewrite hasOverdueNotification_app.
  destruct (hasOverdueNotification (notifications snap) t) eqn:Hold;
    [reflexivity|]. cbn [orb andb].
  destruct (overdueNotifications snap now t) as [|n r] eqn:Hem.
  - (* nothing was emitted although the task was due: nobody is assigned *)
    unfold overdueNotifications in Hem. rewrite Hov, Hold in Hem.
    cbn [andb negb] in Hem. unfold taskNotifications in *.
    cbn [taskNotificationData d_userId] in *.
    destruct (JS.truthy (Task.assignedToId t)); [discriminate|].
    now destruct (negb _).
  - assert (hasOverdueNotification
              (flat_map (overdueNotifications snap now) l) t = true) as Hnew.
    { destruct (in_split _ _ Hin) as [l1 [l2 ->]].
      rewrite flat_map_app. cbn [flat_map].
      rewrite !hasOverdueNotification_app.
      rewrite overdueNotifications_recognised by (rewrite Hem; discriminate).
      now rewrite orb_true_r. }
    now rewrite Hnew.
Qed.

(** A scan of the state a scan left, at the same or an earlier time, returns
    that state: the effect that re-runs after its own notifications settles
    at once. *)
Theorem X1_checkOverdueTasks_settles (s : Store) (now now' : Z) :
  now' <= now ->
  let s' := checkOverdueTasks s now s in
  checkOverdueTasks s' now' s' = s'.
Proof.
  intros Hle s'. subst s'. rewrite (checkOverdueTasks_appends s now s).
  rewrite checkOverdueTasks_appends. cbn [users tasks clients taskTypes
    chatMessages notifications].
  f_equal. rewrite <- app_nil_r. f_equal.
  apply flat_map_nil. intros t Ht.
  now apply overdueNotifications_nil_after.
Qed.

(** The scan keeps the notifications it found, in front, and whatever it
    adds is about a task of the list that is past due and neither completed
    nor approved, and goes to that task's assignee, who is never the empty
    id. *)
Theorem X2_checkOverdueTasks_only_overdue (s : Store) (now : Z) :
  let s' := checkOverdueTasks s now s in
  firstn (List.length (notifications s)) (notifications s') = notifications s
  /\ (users s', tasks s', clients s', taskTypes s', chatMessages s')
     = (users s, tasks s, clients s, taskTypes s, chatMessages s)
  /\ forall n,
       In n (emittedBetween s s') ->
       exists t,
         In t (tasks s)
         /\ Notification.taskId n = Some (Task.id t)
         /\ Task.dueDate t < now
         /\ Task.status t <> completed
         /\ Task.status t <> approved
         /\ Notification.userId n = Task.assignedToId t
         /\ Notification.userId n <> ""
         /\ Notification.title n = "Task overdue"
         /\ Notification.priority n = Some urgent.
Proof.
  intros s'. subst s'. rewrite emitted_checkOverdueTasks.
  rewrite checkOverdueTasks_appends.
  cbn [users tasks clients taskTypes chatMessages notifications].
  split; [|split; [reflexivity|]].
  - rewrite firstn_app, Nat.sub_diag, firstn_all. cbn. apply app_nil_r.
  - intros n Hn. apply in_flat_map in Hn. destruct Hn as [t [Ht Hn]].
    exists t. split; [exact Ht|].
    unfold overdueNotifications in Hn.
    destruct (isOverdue now t) eqn:Hov; [|contradiction].
    destruct (negb _); [|contradiction]. cbn [andb] in Hn.
    unfold taskNotifications in Hn.
    cbn [taskNotificationData d_userId] in Hn.
    destruct (JS.truthy (Task.assignedToId t)) eqn:Htr; [|contradiction].
    destruct Hn as [<-|[]].
    apply isOverdue_spec in Hov. destruct Hov as [H1 [H2 H3]].
    apply truthy_nonempty in Htr. cbn. repeat split; assumption.
Qed.

End ScanAgain.

Lemma X1_checkOverdueTasks_settles_witness :
  let s' := @checkOverdueTasks enUS (clearedStore august1) august1
              (clearedStore august1) in
  @checkOverdueTasks enUS s' august1 s' = s'.
Proof.
  apply (@X1_checkOverdueTasks_settles enUS (clearedStore august1) august1
           august1).
  lia.
Defined.

(** ** Who hears about new milestones *)

Lemma has_spec (seen : list string) (u : string) :
  has seen u = true <-> In u seen.
Proof.
  unfold has. rewrite existsb_exists. split.
  - intros [x [Hx E]]. apply String.eqb_eq in E. now subst.
  - intros H. exists u. split; [exact H|apply String.eqb_refl].
Qed.

Lemma firstSeen_spec (ids seen : list string) :
  NoDup (firstSeen seen ids)
  /\ forall u, In u (firstSeen seen ids) <-> In u ids /\ ~ In u seen.
Proof.
  revert seen. induction ids as [|x ids IH]; intros seen; cbn [firstSeen].
  - split; [constructor|]. intros u. cbn. tauto.
  - destruct (has seen x) eqn:Hx.
    + apply has_spec in Hx. destruct (IH seen) as [Hnd Hin].
      split; [exact Hnd|]. intros u. rewrite Hin. cbn [In].
      split; [tauto|]. intros [[->|H] Hn]; tauto.
    + assert (~ In x seen) as Hx'
        by (intros H; apply has_spec in H; congruence).
      destruct (IH (x :: seen)) as [Hnd Hin]. split.
      * constructor; [|exact Hnd]. rewrite Hin. cbn. tauto.
      * intros u. cbn [In]. rewrite Hin. cbn [In].
        destruct (String.eqb_spec x u) as [->|Hne]; [tauto|].
        split; [tauto|]. intros [[E|H] Hn]; [congruence|]. right.
        split; [exact H|]. intros [E|E]; [congruence|tauto].
Qed.

(** The loop over ids: the pending store gets one notice for each id not
    seen before, in order. *)
Lemma notifyAll_appends now name (ids seen : list string) (c : Store) :
  snd (fold_left (notifyOne now name) ids (seen, c)) =
  mkStore (users c) (tasks c) (clients c) (taskTypes c) (chatMessages c)
    (notifications c
       ++ map (fun u => stamped now (milestoneNotice name u))
              (firstSeen seen ids))%list
  /\ forall u,
       In u (fst (fold_left (notifyOne now name) ids (seen, c))) <->
       In u seen \/ In u ids.
Proof.
  revert seen c. induction ids as [|x ids IH]; intros seen c;
    cbn [fold_left firstSeen].
  - split; [destruct c; cbn; now rewrite app_nil_r|]. cbn. tauto.
  - unfold notifyOne at 2 4. destruct (has seen x) eqn:Hx.
    + destruct (IH seen c) as [E1 E2]. split; [exact E1|].
      intros u. rewrite E2. apply has_spec in Hx. cbn [In].
      split; [tauto|]. intros [H|[->|H]]; tauto.
    + destruct (IH (x :: seen)
                  (addNotification now (milestoneNotice name x) c))
        as [E1 E2].
      split.
      * rewrite E1. cbn. now rewrite <- app_assoc.
      * intros u. rewrite E2. cbn [In]. tauto.
Qed.

(** The whole of [notifyMilestoneUpdates] is that loop over the audience of
    the tasks of the type. *)
Lemma notifyMilestoneUpdates_loop snap now id name cur :
  notifyMilestoneUpdates snap now id name cur =
  snd (fold_left (notifyOne now name)
         (milestoneAudience
            (filter (fun task => (Task.taskTypeId task =? id)%string)
                    (tasks snap)))
         ([], cur)).
Proof.
  unfold notifyMilestoneUpdates. f_equal.
  generalize (@nil string, cur).
  induction (filter _ (tasks snap)) as [|t l IH]; intros acc;
    [reflexivity|].
  cbn [fold_left milestoneAudience flat_map].
  fold (milestoneAudience l).
  rewrite !fold_left_app. rewrite IH. f_equal.
  destruct (JS.truthy (Task.assignedToId t));
    destruct (Task.assignedUsers t); reflexivity.
Qed.

Lemma milestoneAudience_spec (l : list Task.t) (u : string) :
  In u (milestoneAudience l) <->
  exists t, In t l
            /\ ((Task.assignedToId t = u /\ u <> "")
                \/ In u (orEmpty (Task.assignedUsers t))).
Proof.
  unfold milestoneAudience. rewrite in_flat_map.
  split; intros [t [Ht H]]; exists t; (split; [exact Ht|]).
  - apply in_app_or in H. destruct H as [H|H]; [left|now right].
    destruct (JS.truthy (Task.assignedToId t)) eqn:E; [|contradiction].
    destruct H as [<-|[]]. split; [reflexivity|].
    now apply truthy_nonempty.
  - apply in_or_app. destruct H as [[<- Hne]|H]; [left|now right].
    apply truthy_nonempty in Hne. rewrite Hne. now left.
Qed.

(** When [updateTaskType] replaces the milestones of a task type, the
    notices it sends go to the users of the tasks of that type, that is the
    non-empty assignees and all the assigned users, one notice each however
    many of the tasks they are on; every notice is a system notification
    titled "Task milestones updated" with priority medium and no task id,
    and its text quotes the name the type had before the update. *)
Theorem X3_milestone_notices_once_per_user (s : Store) (now : Z)
  (id : string) (updates : TaskTypePatch.t)
  (newMilestones : list Milestone.t) (original : TaskType.t) :
  findTaskType (taskTypes s) id = Some original ->
  TaskTypePatch.milestones updates = Some newMilestones ->
  let emitted := emittedBetween s (updateTaskType s now id updates s) in
  NoDup (map Notification.userId emitted)
  /\ (forall u,
         In u (map Notification.userId emitted) <->
         exists t,
           In t (tasks s) /\ Task.taskTypeId t = id
           /\ ((Task.assignedToId t = u /\ u <> "")
               \/ In u (orEmpty (Task.assignedUsers t))))
  /\ (forall n,
         In n emitted ->
         Notification.type n = type_system
         /\ Notification.title n = "Task milestones updated"
         /\ Notification.message n =
            "Milestones for " ++ String (ascii_of_nat 34)
              (TaskType.name original
                 ++ String (ascii_of_nat 34)
                      " tasks have been updated. Please review your tasks.")
         /\ Notification.priority n = Some medium
         /\ Notification.taskId n = None
         /\ Notification.isRead n = false).
Proof.
  intros Hfind Hms emitted. subst emitted.
  unfold emittedBetween, updateTaskType. rewrite Hfind, Hms.
  rewrite notifyMilestoneUpdates_loop.
  match goal with
  | |- context [fold_left _ ?ids (_, ?c)] =>
      destruct (notifyAll_appends now (TaskType.name original) ids [] c)
        as [E _]
  end.
  rewrite E. cbn [notifications syncTaskMilestones setTasks setTaskTypes].
  rewrite skipn_length_app, map_map. cbn [stamped milestoneNotice d_userId
    Notification.userId]. rewrite map_id.
  match goal with
  | |- context [firstSeen [] ?ids] =>
      destruct (firstSeen_spec ids []) as [Hnd Hin]
  end.
  split; [exact Hnd|]. split.
  - intros u. rewrite Hin, milestoneAudience_spec. cbn [In].
    split.
    + intros [[t [Ht H]] _]. apply filter_In in Ht.
      destruct Ht as [Ht E']. apply String.eqb_eq in E'.
      exists t. tauto.
    + intros [t [Ht [E' H]]]. split; [|tauto]. exists t.
      split; [|exact H]. apply filter_In. split; [exact Ht|].
      now apply String.eqb_eq.
  - intros n Hn. apply in_map_iff in Hn. destruct Hn as [u [<- _]].
    cbn. repeat split.
Qed.

Lemma X3_milestone_notices_once_per_user_witness :
  let emitted :=
    emittedBetween (initialStore august1)
      (updateTaskType (initialStore august1) august1 "1" milestonesPatch
         (initialStore august1)) in
  NoDup (map Notification.userId emitted)
  /\ (forall u,
         In u (map Notification.userId emitted) <->
         exists t,
           In t (tasks (initialStore august1)) /\ Task.taskTypeId t = "1"
           /\ ((Task.assignedToId t = u /\ u <> "")
               \/ In u (orEmpty (Task.assignedUsers t))))
  /\ (forall n,
         In n emitted ->
         Notification.type n = type_system
         /\ Notification.title n = "Task milestones updated"
         /\ Notification.message n =
            "Milestones for " ++ String (ascii_of_nat 34)
              (TaskType.name taxReturnType
                 ++ String (ascii_of_nat 34)
                      " tasks have been updated. Please review your tasks.")
         /\ Notification.priority n = Some medium
         /\ Notification.taskId n = None
         /\ Notification.isRead n = false).
Proof.
  apply (X3_milestone_notices_once_per_user (initialStore august1) august1
           "1" milestonesPatch twoMilestones taxReturnType).
  - reflexivity.
  - reflexivity.
Defined.

Example milestone_notice_on_first_render :
  map (fun n => (Notification.userId n, Notification.message n))
    (emittedBetween (initialStore august1)
       (updateTaskType (initialStore august1) august1 "1" milestonesPatch
          (initialStore august1)))
  = [("2", "Milestones for " ++ String (ascii_of_nat 34)
             ("Tax Return Preparation" ++ String (ascii_of_nat 34)
                " tasks have been updated. Please review your tasks."))].
Proof. reflexivity. Qed.

(** ** Task types and the progress the task card shows *)

Lemma map_unchanged {A : Type} (f : A -> A) (l : list A) :
  (forall x, In x l -> f x = x) -> map f l = l.
Proof.
  induction l as [|x l IH]; intros H; cbn [map]; [reflexivity|].
  rewrite (H x (or_introl eq_refl)). f_equal. apply IH.
  intros y Hy. apply H. now right.
Qed.



Lemma filter_twice {A : Type} (p : A -> bool) (l : list A) :
  filter p (filter p l) = filter p l.
Proof.
  induction l as [|x l IH]; [reflexivity|]. cbn [filter].
  destruct (p x) eqn:E; [|exact IH]. cbn [filter]. rewrite E. now f_equal.
Qed.

(** [updateTaskType] with an id that no task type has returns the store it
    was given, whatever the patch: tasks that still carry that id keep their
    progress and nobody is notified. *)
Theorem X4_updateTaskType_absent_id (s : Store) (now : Z) (id : string)
  (updates : TaskTypePatch.t) :
  ~ In id (map TaskType.id (taskTypes s)) ->
  updateTaskType s now id updates s = s.
Proof.
  intros Hn.
  assert (forall x, In x (taskTypes s) ->
                    (TaskType.id x =? id)%string = false) as Hall.
  { intros x Hx. apply String.eqb_neq. intros E. apply Hn.
    rewrite <- E. now apply in_map. }
  unfold updateTaskType, findTaskType. rewrite (find_absent _ _ Hall).
  assert (setTaskTypes
            (map (fun taskType =>
                    if (TaskType.id taskType =? id)%string
                    then mergeTaskType taskType updates now else taskType))
            s = s) as E.
  { unfold setTaskTypes. destruct s as [us ts cs tts ms ns]. cbn in *.
    f_equal. apply map_unchanged. intros x Hx. now rewrite (Hall x Hx). }
  rewrite E. now destruct (TaskTypePatch.milestones updates).
Qed.


(** Keeping some of the progress entries keeps their milestone ids
    distinct. *)
Lemma kept_progress_ids_distinct (keep : MilestoneProgress.t -> bool)
  (progress : list MilestoneProgress.t) :
  NoDup (map MilestoneProgress.milestoneId progress) ->
  NoDup (map MilestoneProgress.milestoneId (filter keep progress)).
Proof.
  induction progress as [|x l IH]; cbn [map filter]; intros H;
    [constructor|].
  inversion H as [|? ? Hx Hl]; subst.
  destruct (keep x); [|now apply IH]. cbn [map].
  constructor; [|now apply IH].
  intros Hin. apply Hx. apply in_map_iff in Hin.
  destruct Hin as [y [E Hy]]. apply filter_In in Hy.
  apply in_map_iff. exists y. tauto.
Qed.

Lemma filter_length_le {A : Type} (p : A -> bool) (l : list A) :
  (List.length (filter p l) <= List.length l)%nat.
Proof.
  induction l as [|x l IH]; cbn [filter List.length]; [lia|].
  destruct (p x); cbn [List.length]; lia.
Qed.

(** When no two progress entries of a task name the same milestone, the
    count of completed milestones the card shows is at most the number of
    milestones of the task type: the bar stays within 100%. *)
Theorem X6_completed_count_bounded (s : Store) (task : Task.t) :
  NoDup (map MilestoneProgress.milestoneId
             (orEmpty (Task.milestoneProgress task))) ->
  (validCompletedCount s task <= List.length (milestonesOf s task))%nat.
Proof.
  intros Hnd. unfold validCompletedCount.
  etransitivity; [apply filter_length_le|].
  rewrite <- (length_map MilestoneProgress.milestoneId).
  rewrite <- (length_map Milestone.id (milestonesOf s task)).
  apply NoDup_incl_length.
  - unfold validProgress. now apply kept_progress_ids_distinct.
  - intros m Hm. apply in_map_iff in Hm. destruct Hm as [p [<- Hp]].
    unfold validProgress in Hp. apply filter_In in Hp.
    destruct Hp as [_ Hp]. apply milestoneExists_spec in Hp.
    destruct Hp as [ms [Hms E]]. rewrite <- E. now apply in_map.
Qed.

Lemma X4_updateTaskType_absent_id_witness :
  updateTaskType (initialStore august1) august1 "9" milestonesPatch
    (initialStore august1) = initialStore august1.
Proof.
  apply (X4_updateTaskType_absent_id (initialStore august1) august1 "9"
           milestonesPatch).
  cbn. intuition discriminate.
Defined.


Lemma X6_completed_count_bounded_witness :
  let s := @updateTask enUS (initialStore august1) august1 "3" progressPatch
             (initialStore august1) in
  let task := nth 2 (tasks s) task3 in
  (validCompletedCount s task <= List.length (milestonesOf s task))%nat.
Proof.
  apply (X6_completed_count_bounded
           (@updateTask enUS (initialStore august1) august1 "3" progressPatch
              (initialStore august1))).
  repeat constructor; cbn; intuition discriminate.
Defined.

(** ** The handlers of the task page *)

Section Toggled.

Variables (now : Z) (user : option AuthUser.t) (m : string) (c : bool).

Let named (mp : MilestoneProgress.t) : bool :=
  (MilestoneProgress.milestoneId mp =? m)%string.

Let toggled (l : list MilestoneProgress.t) : list MilestoneProgress.t :=
  toggledProgress now user l m c.

Lemma toggledProgress_nil :
  toggled [] =
  [MilestoneProgress.mk m c (if c then Some now else None)
     (if c then userIdOf user else None)].
Proof. reflexivity. Qed.

Lemma toggledProgress_cons p l :
  toggled (p :: l) =
  if named p
  then MilestoneProgress.mk (MilestoneProgress.milestoneId p) c
         (if c then Some now else None)
         (if c then userIdOf user else None) :: l
  else p :: toggled l.
Proof.
  unfold toggled, toggledProgress, named. cbn [findIndex].
  destruct (MilestoneProgress.milestoneId p =? m)%string; [reflexivity|].
  destruct (findIndex _ l); reflexivity.
Qed.

(** The entry found for the milestone after the toggle carries the flag, and
    the time and the user exactly when the flag is set. *)
Lemma toggledProgress_find l :
  exists p,
    find named (toggled l) = Some p
    /\ MilestoneProgress.milestoneId p = m
    /\ MilestoneProgress.completed p = c
    /\ MilestoneProgress.completedAt p = (if c then Some now else None)
    /\ MilestoneProgress.completedById p
       = (if c then userIdOf user else None).
Proof.
  induction l as [|x l IH].
  - rewrite toggledProgress_nil. eexists. cbn [find]. unfold named.
    cbn [MilestoneProgress.milestoneId]. rewrite String.eqb_refl.
    repeat split.
  - rewrite toggledProgress_cons. destruct (named x) eqn:E.
    + eexists. cbn [find]. unfold named in *.
      cbn [MilestoneProgress.milestoneId]. rewrite E.
      split; [reflexivity|]. split; [now apply String.eqb_eq|].
      repeat split.
    + cbn [find]. rewrite E. exact IH.
Qed.

(** The entries of the other milestones stay as they were. *)
Lemma toggledProgress_others l :
  filter (fun mp => negb (named mp)) (toggled l)
  = filter (fun mp => negb (named mp)) l.
Proof.
  induction l as [|x l IH].
  - rewrite toggledProgress_nil. cbn [filter]. unfold named.
    cbn [MilestoneProgress.milestoneId]. now rewrite String.eqb_refl.
  - rewrite toggledProgress_cons. destruct (named x) eqn:E.
    + cbn [filter]. unfold named in *.
      cbn [MilestoneProgress.milestoneId]. now rewrite E.
    + cbn [filter]. rewrite E. cbn [negb]. now f_equal.
Qed.

Lemma toggledProgress_ids l :
  map MilestoneProgress.milestoneId (toggled l) =
  if existsb named l then map MilestoneProgress.milestoneId l
  else (map MilestoneProgress.milestoneId l ++ [m])%list.
Proof.
  induction l as [|x l IH].
  - reflexivity.
  - rewrite toggledProgress_cons. cbn [existsb].
    destruct (named x) eqn:E; cbn [orb map]; [reflexivity|].
    rewrite IH. now destruct (existsb named l).
Qed.

(** The toggle never makes two entries for one milestone. *)
Lemma toggledProgress_NoDup l :
  NoDup (map MilestoneProgress.milestoneId l) ->
  NoDup (map MilestoneProgress.milestoneId (toggled l)).
Proof.
  intros H. rewrite toggledProgress_ids.
  destruct (existsb named l) eqn:E; [exact H|].
  apply NoDup_app; [exact H|repeat constructor; cbn; tauto|].
  intros x Hx [<-|[]]. apply in_map_iff in Hx. destruct Hx as [p [Ep Hp]].
  assert (existsb named l = true) as E'.
  { apply existsb_exists. exists p. split; [exact Hp|].
    unfold named. now apply String.eqb_eq. }
  congruence.
Qed.

End Toggled.

Section Page.

Context {host : Host}.

Variable user : option AuthUser.t.

(** [updateTask] with a patch that has no status changes the tasks only. *)
Lemma updateTask_without_status (s : Store) (now : Z) (id : string)
  (updates : TaskPatch.t) (original : Task.t) :
  findTask (tasks s) id = Some original ->
  TaskPatch.status updates = None ->
  updateTask s now id updates s =
  setTasks (map (fun task => if (Task.id task =? id)%string
                             then mergeTask original updates else task)) s.
Proof.
  intros Hfind Hst. unfold updateTask. rewrite Hfind, Hst.
  unfold updatedTaskOf, statusChanged. now rewrite Hst.
Qed.

Lemma nth_error_updated (l : list Task.t) (id : string)
  (original updated : Task.t) (i : nat) :
  findTask l id = Some original ->
  nth_error l i = Some original ->
  nth_error (map (fun task => if (Task.id task =? id)%string
                              then updated else task) l) i
  = Some updated.
Proof.
  intros Hfind Hi. destruct (findTask_id _ _ _ Hfind) as [_ E].
  rewrite nth_error_map, Hi. cbn [option_map].
  now rewrite E, String.eqb_refl.
Qed.

(** Toggling a milestone of a stored task rewrites that task's progress:
    the entry shown for the milestone carries the flag (and the time and the
    user when the flag is set), the entries of other milestones are as
    before, and distinct milestone ids stay distinct.  The status and the
    activity log of the task are untouched and nobody is notified. *)
Theorem X7_toggle_rewrites_one_entry (s : Store) (now : Z)
  (taskId milestoneId : string) (completed : bool) (task : Task.t)
  (i : nat) :
  findTask (tasks s) taskId = Some task ->
  nth_error (tasks s) i = Some task ->
  let s' := handleMilestoneToggle user s now taskId milestoneId completed s in
  exists task',
    nth_error (tasks s') i = Some task'
    /\ (exists p,
           find (fun mp => (MilestoneProgress.milestoneId mp
                              =? milestoneId)%string)
                (orEmpty (Task.milestoneProgress task')) = Some p
           /\ MilestoneProgress.completed p = completed
           /\ MilestoneProgress.completedAt p
              = (if completed then Some now else None)
           /\ MilestoneProgress.completedById p
              = (if completed then userIdOf user else None))
    /\ filter (fun mp => negb (MilestoneProgress.milestoneId mp
                                 =? milestoneId)%string)
              (orEmpty (Task.milestoneProgress task'))
       = filter (fun mp => negb (MilestoneProgress.milestoneId mp
                                   =? milestoneId)%string)
                (orEmpty (Task.milestoneProgress task))
    /\ (NoDup (map MilestoneProgress.milestoneId
                   (orEmpty (Task.milestoneProgress task))) ->
        NoDup (map MilestoneProgress.milestoneId
                   (orEmpty (Task.milestoneProgress task'))))
    /\ Task.status task' = Task.status task
    /\ Task.activityLog task' = Task.activityLog task
    /\ notifications s' = notifications s.
Proof.
  intros Hfind Hi s'. subst s'. unfold handleMilestoneToggle.
  rewrite Hfind.
  erewrite updateTask_without_status; [|exact Hfind|reflexivity].
  eexists. split.
  { cbn [tasks setTasks]. apply (nth_error_updated _ _ _ _ _ Hfind Hi). }
  cbn [mergeTask progressUpdate Task.milestoneProgress Task.status
       Task.activityLog patched patchedOpt orEmpty notifications setTasks
       TaskPatch.milestoneProgress TaskPatch.status TaskPatch.activityLog].
  split.
  { destruct (toggledProgress_find now user milestoneId completed
                (orEmpty (Task.milestoneProgress task)))
      as [p [Hp [_ H]]].
    exists p. split; [exact Hp|exact H]. }
  split; [apply toggledProgress_others|].
  split; [apply toggledProgress_NoDup|].
  repeat split.
Qed.

(** Transferring a stored task sets its primary assignee and leaves its list
    of assigned users, its status and its activity log as they were; nobody,
    the new assignee included, is notified. *)
Theorem X8_transfer_notifies_nobody (s : Store) (now : Z)
  (transferTaskId newUserId : string) (task : Task.t) (i : nat) :
  transferTaskId <> "" ->
  findTask (tasks s) transferTaskId = Some task ->
  nth_error (tasks s) i = Some task ->
  let s' := handleTaskTransfer user s now transferTaskId newUserId s in
  exists task',
    nth_error (tasks s') i = Some task'
    /\ Task.assignedToId task' = newUserId
    /\ Task.assignedUsers task' = Task.assignedUsers task
    /\ Task.status task' = Task.status task
    /\ Task.activityLog task' = Task.activityLog task
    /\ notifications s' = notifications s.
Proof.
  intros Hid Hfind Hi s'. subst s'. unfold handleTaskTransfer.
  apply truthy_nonempty in Hid. rewrite Hid, Hfind.
  erewrite updateTask_without_status; [|exact Hfind|reflexivity].
  eexists. split.
  { cbn [tasks setTasks]. apply (nth_error_updated _ _ _ _ _ Hfind Hi). }
  repeat split.
Qed.

(** Assigning users to the selected task stores the assigned users of the
    selected copy followed by the chosen users, without removing repeats;
    the primary assignee stays and nobody is notified. *)
Theorem X9_assign_appends_users (s : Store) (now : Z)
  (selectedTask task : Task.t) (selectedUsers : list string) (i : nat) :
  selectedUsers <> [] ->
  findTask (tasks s) (Task.id selectedTask) = Some task ->
  nth_error (tasks s) i = Some task ->
  let s' := handleAssignTask user s now (Some selectedTask) selectedUsers s in
  exists task',
    nth_error (tasks s') i = Some task'
    /\ Task.assignedUsers task'
       = Some (orEmpty (Task.assignedUsers selectedTask) ++ selectedUsers)
           %list
    /\ Task.assignedToId task' = Task.assignedToId task
    /\ Task.activityLog task' = Task.activityLog task
    /\ notifications s' = notifications s.
Proof.
  intros Hne Hfind Hi s'. subst s'. unfold handleAssignTask.
  destruct selectedUsers as [|u us]; [congruence|].
  erewrite updateTask_without_status; [|exact Hfind|reflexivity].
  eexists. split.
  { cbn [tasks setTasks]. apply (nth_error_updated _ _ _ _ _ Hfind Hi). }
  repeat split.
Qed.

Lemma findTask_updated (l : list Task.t) (id : string)
  (original updated : Task.t) :
  findTask l id = Some original ->
  Task.id updated = id ->
  findTask (map (fun task => if (Task.id task =? id)%string
                             then updated else task) l) id
  = Some updated.
Proof.
  intros Hfind Hid. unfold findTask in *.
  induction l as [|x l IH]; cbn [find map] in *; [discriminate|].
  destruct (Task.id x =? id)%string eqn:E.
  - now rewrite Hid, String.eqb_refl.
  - rewrite E. now apply IH.
Qed.

Lemma find_through_filter {A : Type} (p q : A -> bool) (l : list A) :
  (forall x, p x = true -> q x = true) ->
  find p (filter q l) = find p l.
Proof.
  intros H. induction l as [|x l IH]; [reflexivity|]. cbn [filter find].
  destruct (p x) eqn:Ep.
  - rewrite (H x Ep). cbn [find]. now rewrite Ep.
  - destruct (q x); [cbn [find]; rewrite Ep|]; exact IH.
Qed.

(** A click on a milestone of a card, by a user who may change the task,
    flips what the card shows for that milestone. *)
Theorem X10_click_flips_milestone (s : Store) (now : Z) (task : Task.t)
  (milestone : Milestone.t) :
  canChangeStatus user task = true ->
  findTask (tasks s) (Task.id task) = Some task ->
  In milestone (milestonesOf s task) ->
  let s' := clickMilestone user s now task milestone s in
  exists task',
    findTask (tasks s') (Task.id task) = Some task'
    /\ isCompleted s' task' milestone = negb (isCompleted s task milestone).
Proof.
  intros Hcan Hfind Hin s'. subst s'. unfold clickMilestone.
  rewrite Hcan. unfold handleMilestoneToggle. rewrite Hfind.
  erewrite updateTask_without_status; [|exact Hfind|reflexivity].
  eexists. split.
  { cbn [tasks setTasks]. apply (findTask_updated _ _ _ _ Hfind).
    reflexivity. }
  unfold isCompleted at 1, validProgress, milestonesOf.
  cbn [taskTypes setTasks mergeTask progressUpdate Task.taskTypeId
       Task.milestoneProgress patched patchedOpt orEmpty
       TaskPatch.taskTypeId TaskPatch.milestoneProgress].
  fold (milestonesOf s task).
  rewrite find_through_filter.
  - destruct (toggledProgress_find now user (Milestone.id milestone)
                (negb (isCompleted s task milestone))
                (orEmpty (Task.milestoneProgress task)))
      as [p [Hp [_ [Hc _]]]].
    now rewrite Hp.
  - intros x Hx. apply String.eqb_eq in Hx.
    apply milestoneExists_spec. exists milestone. now split.
Qed.

(** What a user who is not an administrator cannot do from the page: toggle
    a milestone of a task that is completed or approved, or of a task they
    are neither the assignee nor an assigned user of; move a completed task
    to another status.  And nobody completes a task without confirming. *)
Theorem X11_page_guards (s : Store) (now : Z) (task : Task.t)
  (milestone : Milestone.t) (newStatus : TaskStatus) (confirm : bool) :
  isAdmin user = false ->
  (Task.status task = completed \/ Task.status task = approved
   \/ (forall uid, userIdOf user = Some uid ->
                   Task.assignedToId task <> uid
                   /\ ~ In uid (orEmpty (Task.assignedUsers task))) ->
   clickMilestone user s now task milestone s = s)
  /\ (findTask (tasks s) (Task.id task) = Some task ->
      Task.status task = completed -> newStatus <> completed ->
      handleStatusChange user s now confirm (Task.id task) newStatus s = s)
  /\ handleStatusChange user s now false (Task.id task) completed s = s.
Proof.
  intros Hadm. split; [|split].
  - intros H. unfold clickMilestone, canChangeStatus. rewrite Hadm.
    destruct H as [->|[->|H]]; try reflexivity.
    destruct (_ || _); [reflexivity|].
    unfold isAssignee. destruct (userIdOf user) as [uid|]; [|reflexivity].
    destruct (H uid eq_refl) as [H1 H2].
    rewrite (string_eqb_false _ _ H1). cbn [orb].
    destruct (existsb _ _) eqn:E; [|reflexivity].
    apply existsb_exists in E. destruct E as [x [Hx E]].
    apply String.eqb_eq in E. subst. contradiction.
  - intros Hfind Hst Hne. unfold handleStatusChange.
    rewrite Hfind, Hst, Hadm. cbn.
    destruct newStatus; try reflexivity. congruence.
  - unfold handleStatusChange.
    destruct (findTask (tasks s) (Task.id task)); [|reflexivity].
    cbn. destruct (_ && _); reflexivity.
Qed.

(** A status button of a card changes the status for real: Start, Complete
    (once confirmed) and Restart move a stored task from pending to in
    progress, from in progress to completed and from rejected to pending,
    and the task's activity log grows by the one entry that tells it. *)
Theorem X12_status_button_changes_status (s : Store) (now : Z)
  (task : Task.t) (target : TaskStatus) (i : nat) :
  findTask (tasks s) (Task.id task) = Some task ->
  nth_error (tasks s) i = Some task ->
  statusButton task = Some target ->
  let s' := handleStatusChange user s now true (Task.id task) target s in
  exists task' entry,
    nth_error (tasks s') i = Some task'
    /\ Task.status task' = target
    /\ target <> Task.status task
    /\ Task.activityLog task'
       = Some (orEmpty (Task.activityLog task) ++ [entry])%list
    /\ ActivityEntry.action entry
       = "Status changed from " ++ statusText (Task.status task)
           ++ " to " ++ statusText target.
Proof.
  intros Hfind Hi Hb s'. subst s'.
  assert (target <> Task.status task
          /\ Task.status task <> completed) as [Hne Hnc].
  { unfold statusButton in Hb.
    destruct (Task.status task); inversion Hb; split; discriminate. }
  unfold handleStatusChange. rewrite Hfind.
  replace (TaskStatus_eqb (Task.status task) completed) with false
    by (destruct (Task.status task); try reflexivity; congruence).
  cbn [andb negb]. rewrite andb_false_r.
  destruct (statusChanged_spec task (statusUpdate target user)) as [Hch _].
  specialize (Hch target eq_refl Hne).
  exists (updatedTaskOf s now task (statusUpdate target user)).
  exists (activityEntryOf s now task (statusUpdate target user) target).
  split.
  { rewrite (updateTask_tasks _ _ _ _ _ _ Hfind).
    apply (nth_error_updated _ _ _ _ _ Hfind Hi). }
  unfold updatedTaskOf. rewrite Hch. repeat split. exact Hne.
Qed.

End Page.

Lemma X7_toggle_rewrites_one_entry_witness :
  let s := initialStore august1 in
  let s' := @handleMilestoneToggle enUS (Some janeSmith) s august1 "3" "1"
              true s in
  exists task',
    nth_error (tasks s') 2 = Some task'
    /\ (exists p,
           find (fun mp => (MilestoneProgress.milestoneId mp =? "1")%string)
                (orEmpty (Task.milestoneProgress task')) = Some p
           /\ MilestoneProgress.completed p = true
           /\ MilestoneProgress.completedAt p = Some august1
           /\ MilestoneProgress.completedById p = Some "3")
    /\ filter (fun mp => negb (MilestoneProgress.milestoneId mp
                                 =? "1")%string)
              (orEmpty (Task.milestoneProgress task'))
       = filter (fun mp => negb (MilestoneProgress.milestoneId mp
                                   =? "1")%string)
                (orEmpty (Task.milestoneProgress task3))
    /\ (NoDup (map MilestoneProgress.milestoneId
                   (orEmpty (Task.milestoneProgress task3))) ->
        NoDup (map MilestoneProgress.milestoneId
                   (orEmpty (Task.milestoneProgress task'))))
    /\ Task.status task' = Task.status task3
    /\ Task.activityLog task' = Task.activityLog task3
    /\ notifications s' = notifications s.
Proof.
  apply (@X7_toggle_rewrites_one_entry enUS (Some janeSmith)
           (initialStore august1) august1 "3" "1" true task3 2).
  - reflexivity.
  - reflexivity.
Defined.

Lemma X8_transfer_notifies_nobody_witness :
  let s := initialStore august1 in
  let s' := @handleTaskTransfer enUS (Some (guestUser august1)) s august1
              "1" "3" s in
  exists task',
    nth_error (tasks s') 0 = Some task'
    /\ Task.assignedToId task' = "3"
    /\ Task.assignedUsers task' = Task.assignedUsers task1
    /\ Task.status task' = Task.status task1
    /\ Task.activityLog task' = Task.activityLog task1
    /\ notifications s' = notifications s.
Proof.
  apply (@X8_transfer_notifies_nobody enUS (Some (guestUser august1))
           (initialStore august1) august1 "1" "3" task1 0).
  - discriminate.
  - reflexivity.
  - reflexivity.
Defined.

Lemma X9_assign_appends_users_witness :
  let s := initialStore august1 in
  let s' := @handleAssignTask enUS (Some (guestUser august1)) s august1
              (Some task1) ["3"; "2"] s in
  exists task',
    nth_error (tasks s') 0 = Some task'
    /\ Task.assignedUsers task'
       = Some (orEmpty (Task.assignedUsers task1) ++ ["3"; "2"])%list
    /\ Task.assignedToId task' = Task.assignedToId task1
    /\ Task.activityLog task' = Task.activityLog task1
    /\ notifications s' = notifications s.
Proof.
  apply (@X9_assign_appends_users enUS (Some (guestUser august1))
           (initialStore august1) august1 task1 task1 ["3"; "2"] 0).
  - discriminate.
  - reflexivity.
  - reflexivity.
Defined.

Lemma X10_click_flips_milestone_witness :
  let s := initialStore august1 in
  let s' := @clickMilestone enUS (Some janeSmith) s august1 task3
              statementsMilestone s in
  exists task',
    findTask (tasks s') (Task.id task3) = Some task'
    /\ isCompleted s' task' statementsMilestone
       = negb (isCompleted s task3 statementsMilestone).
Proof.
  apply (@X10_click_flips_milestone enUS (Some janeSmith)
           (initialStore august1) august1 task3 statementsMilestone).
  - reflexivity.
  - reflexivity.
  - cbn. tauto.
Defined.

Lemma X11_page_guards_witness :
  @clickMilestone enUS (Some johnDoe) (initialStore august1) august1 task3
    statementsMilestone (initialStore august1) = initialStore august1.
Proof.
  apply (proj1 (@X11_page_guards enUS (Some johnDoe) (initialStore august1)
                  august1 task3 statementsMilestone pending true eq_refl)).
  right. right. intros uid [= <-]. split.
  - discriminate.
  - cbn. intuition discriminate.
Defined.

Lemma X12_status_button_changes_status_witness :
  let s := initialStore august1 in
  let s' := @handleStatusChange enUS (Some janeSmith) s august1 true
              (Task.id task3) completed s in
  exists task' entry,
    nth_error (tasks s') 2 = Some task'
    /\ Task.status task' = completed
    /\ completed <> Task.status task3
    /\ Task.activityLog task'
       = Some (orEmpty (Task.activityLog task3) ++ [entry])%list
    /\ ActivityEntry.action entry
       = "Status changed from " ++ statusText (Task.status task3)
           ++ " to " ++ statusText completed.
Proof.
  apply (@X12_status_button_changes_status enUS (Some janeSmith)
           (initialStore august1) august1 task3 completed 2).
  - reflexivity.
  - reflexivity.
  - reflexivity.
Defined.

Example click_twice_on_first_render :
  let s := initialStore august1 in
  let s1 := @clickMilestone enUS (Some janeSmith) s august1 task3
              statementsMilestone s in
  let s2 := @clickMilestone enUS (Some janeSmith) s1 (august1 + 1000)
              (nth 2 (tasks s1) task3) statementsMilestone s1 in
  map (fun t => orEmpty (Task.milestoneProgress t)) (tasks s1)
  = [[]; []; [MilestoneProgress.mk "3" true (Some august1) (Some "3")]]
  /\ map (fun t => orEmpty (Task.milestoneProgress t)) (tasks s2)
     = [[]; []; [MilestoneProgress.mk "3" false None None]].
Proof. split; reflexivity. Qed.

(** ** Users, clients and the notification list *)

Lemma notice_loop_appends {A : Type} now (d : A -> NotificationData)
  (l : list A) (cur : Store) :
  fold_left (fun c a => addNotification now (d a) c) l cur =
  mkStore (users cur) (tasks cur) (clients cur) (taskTypes cur)
    (chatMessages cur)
    (notifications cur ++ map (fun a => stamped now (d a)) l)%list.
Proof.
  revert cur. induction l as [|a l IH]; intros cur; cbn [fold_left map].
  - destruct cur; cbn. now rewrite app_nil_r.
  - rewrite IH. cbn. now rewrite <- app_assoc.
Qed.

(** [addUser] from a fresh render appends the user, stamped with the clock
    as id and creation time, writes the same list to the saved slot, and
    sends "New user added" to every user who was an administrator before
    the call, once each and in the order of the list, the new user never
    being among them. *)
Theorem X13_addUser_tells_admins (s : Store) (slot : option (list User.t))
  (now : Z) (userData : User.t) :
  let b' := addUser s now userData (mkBrowser s slot) in
  let s' := provider b' in
  exists newUser,
    users s' = (users s ++ [newUser])%list
    /\ usersSlot b' = Some (users s')
    /\ User.id newUser = JS.toString now
    /\ User.createdAt newUser = now
    /\ User.name newUser = User.name userData
    /\ User.role newUser = User.role userData
    /\ (tasks s', clients s', taskTypes s', chatMessages s')
       = (tasks s, clients s, taskTypes s, chatMessages s)
    /\ map (fun n => (Notification.type n, Notification.userId n,
                      Notification.title n, Notification.message n,
                      Notification.taskId n, Notification.priority n))
           (emittedBetween s s')
       = map (fun admin =>
                (type_system, User.id admin, "New user added",
                 User.name userData ++ " has been added to the system",
                 None, None))
             (filter (fun u => (User.role u =? "admin")%string) (users s)).
Proof.
  intros b' s'. subst s' b'. unfold addUser. cbn [provider usersSlot].
  rewrite notice_loop_appends.
  cbn [users tasks clients taskTypes chatMessages notifications setUsers].
  exists (newUserOf now userData).
  repeat (split; [reflexivity|]).
  unfold emittedBetween. cbn [notifications].
  rewrite skipn_length_app, map_map. reflexivity.
Qed.

(** Two [addUser] calls made from the same render keep only the second
    user, in the list and in the saved slot, although the administrators
    were told about both; two [addClient] calls keep both clients. *)
Theorem X14_addUser_same_render_keeps_last (s : Store)
  (slot : option (list User.t)) (now1 now2 : Z) (u1 u2 : User.t)
  (c1 c2 : Client.t) :
  let b2 := addUser s now2 u2 (addUser s now1 u1 (mkBrowser s slot)) in
  users (provider b2) = (users s ++ [newUserOf now2 u2])%list
  /\ usersSlot b2 = Some (users s ++ [newUserOf now2 u2])%list
  /\ List.length (emittedBetween s (provider b2))
     = (2 * List.length
              (filter (fun u => (User.role u =? "admin")%string) (users s)))
         %nat
  /\ clients (addClient now2 c2 (addClient now1 c1 s))
     = (clients s ++ [newClientOf now1 c1; newClientOf now2 c2])%list.
Proof.
  intros b2. subst b2. unfold addUser. cbn [provider usersSlot].
  rewrite !notice_loop_appends.
  cbn [users tasks clients taskTypes chatMessages notifications setUsers].
  split; [reflexivity|]. split; [reflexivity|]. split.
  - unfold emittedBetween. cbn [notifications].
    rewrite <- app_assoc, skipn_length_app, length_app, !length_map. lia.
  - unfold addClient, setClients. cbn [clients].
    now rewrite <- app_assoc.
Qed.

(** [clearAllNotifications] removes the notifications of the user and keeps
    those of everybody else, in order; clearing twice, or marking the user's
    notifications as read before or after clearing, gives the same store as
    clearing once. *)
Theorem X15_clearAllNotifications (s : Store) (userId : string) :
  let s' := clearAllNotifications userId s in
  (forall n, In n (notifications s') <->
             In n (notifications s) /\ Notification.userId n <> userId)
  /\ (forall other, other <> userId ->
        filter (fun n => (Notification.userId n =? other)%string)
               (notifications s')
        = filter (fun n => (Notification.userId n =? other)%string)
                 (notifications s))
  /\ clearAllNotifications userId s' = s'
  /\ markAllNotificationsAsRead userId s' = s'
  /\ clearAllNotifications userId (markAllNotificationsAsRead userId s) = s'.
Proof.
  intros s'. subst s'.
  unfold clearAllNotifications, markAllNotificationsAsRead, setNotifications.
  cbn [users tasks clients taskTypes chatMessages notifications].
  split; [|split; [|split; [|split]]].
  - intros n. rewrite filter_In, negb_true_iff, String.eqb_neq. reflexivity.
  - intros other Hne.
    induction (notifications s) as [|n l IH]; [reflexivity|].
    cbn [filter].
    destruct (String.eqb_spec (Notification.userId n) userId) as [E|E];
      cbn [negb filter].
    + rewrite E, (string_eqb_false _ _ (not_eq_sym Hne)). exact IH.
    + destruct (Notification.userId n =? other)%string; now rewrite IH.
  - f_equal. apply filter_twice.
  - f_equal. apply map_unchanged. intros n Hn. apply filter_In in Hn.
    destruct Hn as [_ Hn]. apply negb_true_iff in Hn. now rewrite Hn.
  - f_equal. induction (notifications s) as [|n l IH]; [reflexivity|].
    cbn [map filter].
    destruct (Notification.userId n =? userId)%string eqn:E.
    + cbn [withIsRead Notification.userId]. rewrite E. exact IH.
    + rewrite E. cbn [negb]. now f_equal.
Qed.

(** [markNotificationAsRead] and [clearNotification] go by the id of the
    notification: with an id no notification has, both return the store as
    it was; marking sets [isRead] on the notifications with the id and
    changes nothing else; clearing removes them and keeps the others in
    order; and marking before clearing makes no difference. *)
Theorem X26_single_notification (s : Store) (id : string) :
  (~ In id (map Notification.id (notifications s)) ->
   markNotificationAsRead id s = s /\ clearNotification id s = s)
  /\ Forall2
       (fun n n' =>
          n' = (if (Notification.id n =? id)%string
                then withIsRead n true else n))
       (notifications s) (notifications (markNotificationAsRead id s))
  /\ (forall n, In n (notifications (clearNotification id s)) <->
                In n (notifications s) /\ Notification.id n <> id)
  /\ clearNotification id (markNotificationAsRead id s)
     = clearNotification id s.
Proof.
  unfold markNotificationAsRead, clearNotification, setNotifications.
  cbn [users tasks clients taskTypes chatMessages notifications].
  split; [|split; [|split]].
  - intros Hn.
    assert (forall n, In n (notifications s) ->
                      (Notification.id n =? id)%string = false) as Hall.
    { intros n Hin. apply String.eqb_neq. intros E. apply Hn.
      rewrite <- E. now apply in_map. }
    destruct s as [us ts cs tts ms ns]. cbn in *. split; f_equal.
    + apply map_unchanged. intros n Hin. now rewrite (Hall n Hin).
    + apply filter_all. intros n Hin. now rewrite (Hall n Hin).
  - induction (notifications s) as [|n l IH]; cbn [map]; constructor;
      [reflexivity|exact IH].
  - intros n. rewrite filter_In, negb_true_iff, String.eqb_neq. reflexivity.
  - f_equal. induction (notifications s) as [|n l IH]; [reflexivity|].
    cbn [map filter].
    destruct (Notification.id n =? id)%string eqn:E.
    + cbn [withIsRead Notification.id]. rewrite E. exact IH.
    + rewrite E. cbn [negb]. now f_equal.
Qed.

Section RoundTrips.

Context {host : Host}.

Lemma filter_drops_last {A : Type} (p : A -> bool) (l : list A) (x : A) :
  (forall y, In y l -> p y = true) -> p x = false ->
  filter p (l ++ [x]) = l.
Proof.
  intros Hl Hx. rewrite filter_app. cbn [filter]. rewrite Hx, app_nil_r.
  now apply filter_all.
Qed.

(** Deleting what was just added, by the id the clock gave it, restores the
    collection when no older record carries that id: for clients, for task
    types and for tasks.  The two notifications [addTask] sent about the
    task stay in the list after the task is gone. *)
Theorem X16_add_then_delete (s : Store) (now : Z) (clientData : Client.t)
  (taskTypeData : TaskType.t) (taskData : Task.t) :
  let id := JS.toString now in
  (~ In id (map Client.id (clients s)) ->
   deleteClient id (addClient now clientData s) = s)
  /\ (~ In id (map TaskType.id (taskTypes s)) ->
      deleteTaskType id (addTaskType now taskTypeData s) = s)
  /\ (~ In id (map Task.id (tasks s)) ->
      tasks (deleteTask id (addTask s now taskData s)) = tasks s
      /\ notifications (deleteTask id (addTask s now taskData s))
         = notifications (addTask s now taskData s)).
Proof.
  intros id. subst id. split; [|split].
  - intros Hn. unfold deleteClient, addClient, setClients.
    destruct s as [us ts cs tts ms ns]. cbn in *. f_equal.
    apply filter_drops_last.
    + intros y Hy. apply negb_true_iff, String.eqb_neq. intros E.
      apply Hn. rewrite <- E. now apply in_map.
    + cbn. now rewrite String.eqb_refl.
  - intros Hn. unfold deleteTaskType, addTaskType, setTaskTypes.
    destruct s as [us ts cs tts ms ns]. cbn in *. f_equal.
    apply filter_drops_last.
    + intros y Hy. apply negb_true_iff, String.eqb_neq. intros E.
      apply Hn. rewrite <- E. now apply in_map.
    + cbn. now rewrite String.eqb_refl.
  - intros Hn. unfold deleteTask, addTask.
    rewrite !generateTaskNotification_appends.
    cbn [tasks notifications setTasks]. split; [|reflexivity].
    apply filter_drops_last.
    + intros y Hy. now rewrite (id_absent _ _ Hn y Hy).
    + cbn. now rewrite String.eqb_refl.
Qed.

End RoundTrips.

Lemma X16_add_then_delete_witness :
  deleteClient (JS.toString august1)
    (addClient august1 newClient (initialStore august1))
  = initialStore august1.
Proof.
  apply (proj1 (@X16_add_then_delete enUS (initialStore august1) august1
                  newClient statementsType sampleTaskData)).
  cbn. intuition discriminate.
Defined.

Example partner_added_on_first_render :
  map (fun n => (Notification.userId n, Notification.message n))
    (emittedBetween (initialStore august1)
       (provider (addUser (initialStore august1) august1 newPartner
                    (mkBrowser (initialStore august1) None))))
  = [("1", "Omar Haddad has been added to the system")].
Proof. reflexivity. Qed.

(** ** Invariants of the task list *)

Section TaskIds.

Context {host : Host}.

Lemma map_id_updated (l : list Task.t) (id : string) (updated : Task.t) :
  Task.id updated = id ->
  map Task.id (map (fun task => if (Task.id task =? id)%string
                                then updated else task) l)
  = map Task.id l.
Proof.
  intros E. rewrite map_map. apply map_ext. intros t.
  destruct (String.eqb_spec (Task.id t) id); congruence.
Qed.

(** The ids of the tasks, in order, survive every operation that is not a
    creation or a deletion: [updateTask] with a patch that has no id,
    [updateTaskType], the overdue scan and [addChatMessage]; [addTask] adds
    the id the clock gave.  Distinct ids therefore stay distinct as long as
    the clock gives a new one. *)
Theorem X17_task_ids_kept (s : Store) (now : Z) (id : string)
  (updates : TaskPatch.t) (typeUpdates : TaskTypePatch.t)
  (messageData : ChatMessage.t) (taskData : Task.t) :
  (TaskPatch.id updates = None ->
   map Task.id (tasks (updateTask s now id updates s))
   = map Task.id (tasks s))
  /\ map Task.id (tasks (updateTaskType s now id typeUpdates s))
     = map Task.id (tasks s)
  /\ tasks (checkOverdueTasks s now s) = tasks s
  /\ tasks (addChatMessage s now messageData s) = tasks s
  /\ map Task.id (tasks (addTask s now taskData s))
     = (map Task.id (tasks s) ++ [JS.toString now])%list
  /\ (NoDup (map Task.id (tasks s)) ->
      ~ In (JS.toString now) (map Task.id (tasks s)) ->
      NoDup (map Task.id (tasks (addTask s now taskData s)))).
Proof.
  assert (map Task.id (tasks (addTask s now taskData s))
          = (map Task.id (tasks s) ++ [JS.toString now])%list) as Hadd.
  { unfold addTask. rewrite !generateTaskNotification_appends.
    cbn [tasks setTasks]. now rewrite map_app. }
  split; [|split; [|split; [|split; [|split]]]].
  - intros Hid. destruct (findTask (tasks s) id) as [original|] eqn:Hfind.
    + rewrite (updateTask_tasks _ _ _ _ _ _ Hfind).
      apply map_id_updated.
      destruct (findTask_id _ _ _ Hfind) as [_ E].
      unfold updatedTaskOf.
      destruct (statusChanged original updates);
        cbn [withActivityLog mergeTask Task.id]; rewrite Hid; exact E.
    + unfold updateTask. now rewrite Hfind.
  - unfold updateTaskType.
    destruct (TaskTypePatch.milestones typeUpdates) as [ms|];
      [|reflexivity].
    destruct (findTaskType (taskTypes s) id); [|reflexivity].
    rewrite notifyMilestoneUpdates_tasks.
    cbn [tasks syncTaskMilestones setTasks setTaskTypes].
    rewrite map_map. apply map_ext. intros x.
    now destruct (Task.taskTypeId x =? id)%string.
  - now rewrite checkOverdueTasks_appends.
  - unfold addChatMessage, generateMessageNotification.
    destruct (findTask _ _); [|reflexivity].
    now rewrite message_loop_appends.
  - exact Hadd.
  - intros Hnd Hfresh. rewrite Hadd.
    apply NoDup_app; [exact Hnd|repeat constructor; cbn; tauto|].
    intros x Hx [<-|[]]. contradiction.
Qed.

End TaskIds.

(** ** The dashboard *)

Lemma countIf_cons {A : Type} (p : A -> bool) (x : A) (l : list A) :
  countIf p (x :: l) = ((if p x then 1 else 0) + countIf p l)%nat.
Proof. unfold countIf. cbn [filter]. destruct (p x); reflexivity. Qed.

(** The counts of the dashboard add up: every task is pending, in progress,
    completed or approved, or rejected, for which there is no count; an
    overdue task is never among the completed ones; and the overdue count is
    the number of tasks the overdue scan takes for overdue. *)
Theorem X18_dashboard_counts (now : Z) (s : Store) :
  let st := stats now s in
  totalTasks st
  = (pendingTasks st + inProgressTasks st + completedTasks st
     + countIf (fun t => TaskStatus_eqb (Task.status t) rejected) (tasks s))
      %nat
  /\ (overdueTests st + completedTasks st <= totalTasks st)%nat
  /\ overdueTests st = countIf (isOverdue now) (tasks s).
Proof.
  intros st. subst st. unfold stats.
  cbn [totalTasks pendingTasks inProgressTasks completedTasks overdueTests].
  split; [|split; [|reflexivity]].
  - induction (tasks s) as [|t l IH]; [reflexivity|].
    rewrite !countIf_cons. cbn [List.length]. rewrite IH.
    destruct (Task.status t); cbn; lia.
  - induction (tasks s) as [|t l IH]; [cbn; lia|].
    rewrite !countIf_cons. cbn [List.length].
    destruct (Task.status t); destruct (Task.dueDate t <? now); cbn; lia.
Qed.

(** ** Message previews and task numbers *)

Lemma string_length_append (a b : string) :
  String.length (a ++ b) = (String.length a + String.length b)%nat.
Proof. induction a as [|c a IH]; cbn; [reflexivity|now rewrite IH]. Qed.

(** The body of a message notification is never longer than the sender's
    name and 55 more characters: the colon and the blank, at most fifty
    characters of the message, and the three dots of a cut message. *)
Theorem X19_preview_length (senderName message : string) :
  String.length (messagePreview senderName message)
  = (String.length senderName + 2
     + Nat.min (String.length message) 50
     + (if (50 <? String.length message)%nat then 3 else 0))%nat
  /\ (String.length (messagePreview senderName message)
      <= String.length senderName + 55)%nat.
Proof.
  assert (String.length (messagePreview senderName message)
          = (String.length senderName + 2
             + Nat.min (String.length message) 50
             + (if (50 <? String.length message)%nat then 3 else 0))%nat)
    as E.
  { unfold messagePreview. rewrite !string_length_append.
    destruct (50 <? String.length message)%nat eqn:H.
    - apply Nat.ltb_lt in H. rewrite substring0_length by lia. cbn. lia.
    - apply Nat.ltb_ge in H. rewrite substring0_all by lia. cbn. lia. }
  split; [exact E|]. rewrite E.
  destruct (50 <? String.length message)%nat; lia.
Qed.

Lemma test_T3_suffixOf (num : string) :
  JS.test_T3 num = false -> suffixOf num = None.
Proof.
  unfold JS.test_T3, suffixOf.
  destruct num as [|t [|a [|b [|c [|d r]]]]]; try reflexivity.
  now intros ->.
Qed.

Lemma nth_error_seq (a n i k : nat) :
  nth_error (seq a n) i = Some k -> k = (a + i)%nat.
Proof.
  revert a i. induction n as [|n IH]; intros a [|i]; cbn; try discriminate.
  - intros [= <-]. lia.
  - intros H. apply IH in H. lia.
Qed.

Lemma NoDup_map_injective {A B : Type} (f : A -> B) (l : list A) :
  (forall a b, f a = f b -> a = b) -> NoDup l -> NoDup (map f l).
Proof.
  intros Hf. induction 1 as [|x l Hx Hl IH]; cbn [map]; constructor.
  - intros H. apply in_map_iff in H. destruct H as [y [E Hy]].
    apply Hf in E. now subst.
  - exact IH.
Qed.

Section TaskNumbersBelow1000.

Context {host : Host}.

(** When no task number of the list has the form T### (the list may be
    empty, or hold numbers such as T1000), the next task is numbered
    T001. *)
Theorem X20_numbering_restarts_at_T001 (s : Store) :
  (forall t, In t (tasks s) -> JS.test_T3 (Task.taskNumber t) = false) ->
  generateTaskNumber s = "T001".
Proof.
  intros H. unfold generateTaskNumber. rewrite nextNumber_refines.
  unfold specNextNumber.
  assert (suffixes (tasks s) = []) as ->.
  { unfold suffixes. apply flat_map_nil. intros t Ht.
    now rewrite (test_T3_suffixOf _ (H t Ht)). }
  reflexivity.
Qed.

(** A run of [addTask] calls, each from a fresh render, that stays at or
    below number 999: the new task numbers have the form T###, count up by
    one from the next number of the starting list, are pairwise different
    and differ from every number the list already had. *)
Theorem X21_numbers_consecutive_below_1000 (calls : list (Z * Task.t))
  (s : Store) :
  nextNumber (tasks s) + Z.of_nat (List.length calls) <= 1000 ->
  let new := skipn (List.length (tasks s))
               (map Task.taskNumber (tasks (addTasks calls s))) in
  List.length new = List.length calls
  /\ (forall i num,
         nth_error new i = Some num ->
         JS.test_T3 num = true
         /\ suffixOf num = Some (nextNumber (tasks s) + Z.of_nat i))
  /\ NoDup new
  /\ (forall num, In num new ->
                  ~ In num (map Task.taskNumber (tasks s))).
Proof.
  intros Hle new. subst new. rewrite (addTasks_taskNumbers _ _ Hle).
  rewrite <- (length_map Task.taskNumber (tasks s)), skipn_length_app.
  pose proof (nextNumber_positive (tasks s)) as Hpos.
  assert (forall i num,
             nth_error
               (map (fun i => renderTaskNumber
                                (nextNumber (tasks s) + Z.of_nat i))
                    (seq 0 (List.length calls))) i = Some num ->
             suffixOf num = Some (nextNumber (tasks s) + Z.of_nat i))
    as Hsuf.
  { intros i num Hi. rewrite nth_error_map in Hi.
    destruct (nth_error (seq 0 (List.length calls)) i) as [k|] eqn:Hk;
      [|discriminate].
    pose proof (nth_error_In _ _ Hk) as Hin. apply in_seq in Hin.
    assert (k = i) as -> by (apply nth_error_seq in Hk; lia).
    injection Hi as <-. apply renderTaskNumber_suffixOf. lia. }
  split; [now rewrite length_map, length_seq|]. split; [|split].
  - intros i num Hi. specialize (Hsuf i num Hi). split; [|exact Hsuf].
    destruct (JS.test_T3 num) eqn:E; [reflexivity|].
    rewrite (test_T3_suffixOf _ E) in Hsuf. discriminate.
  - apply (NoDup_map_inv suffixOf). rewrite map_map.
    rewrite (map_ext_in _
               (fun i => Some (nextNumber (tasks s) + Z.of_nat i))).
    + apply NoDup_map_injective; [|apply seq_NoDup].
      intros a b E.
      assert (nextNumber (tasks s) + Z.of_nat a
              = nextNumber (tasks s) + Z.of_nat b) by congruence.
      lia.
    + intros k Hk. apply in_seq in Hk.
      apply renderTaskNumber_suffixOf. lia.
  - intros num Hin Hold. apply In_nth_error in Hin. destruct Hin as [i Hi].
    specialize (Hsuf i num Hi).
    apply in_map_iff in Hold. destruct Hold as [t [Et Ht]].
    rewrite <- Et in Hsuf.
    pose proof (nextNumber_exceeds _ _ _ Ht Hsuf). lia.
Qed.

End TaskNumbersBelow1000.

(** ** Deleted users *)

(** Deleting a user leaves the tasks alone, those assigned to or by the user
    included; a message that user then writes on an existing task is
    announced under the name "Unknown User". *)
Theorem X22_deleted_sender_is_unknown (s : Store)
  (slot : option (list User.t)) (now : Z) (messageData : ChatMessage.t)
  (task : Task.t) :
  let s1 := provider (deleteUser s (ChatMessage.userId messageData)
                        (mkBrowser s slot)) in
  findTask (tasks s) (ChatMessage.taskId messageData) = Some task ->
  tasks s1 = tasks s
  /\ (forall u, In u (users s1) <->
                In u (users s)
                /\ User.id u <> ChatMessage.userId messageData)
  /\ forall n,
       In n (emittedBetween s1 (addChatMessage s1 now messageData s1)) ->
       Notification.message n
       = messagePreview "Unknown User" (ChatMessage.message messageData).
Proof.
  intros s1 Hfind. subst s1. unfold deleteUser.
  cbn [provider tasks setUsers users].
  split; [reflexivity|]. split.
  - intros u. rewrite filter_In, negb_true_iff, String.eqb_neq. reflexivity.
  - intros n Hn.
    erewrite emitted_addChatMessage in Hn by exact Hfind.
    apply in_flat_map in Hn. destruct Hn as [uid [_ Hn]].
    destruct (JS.truthy uid); [|contradiction].
    destruct Hn as [<-|[]].
    cbn [stamped messageNotificationData d_message Notification.message].
    unfold senderNameOf, findUser. cbn [users].
    rewrite find_absent; [reflexivity|].
    intros x Hx. apply filter_In in Hx. destruct Hx as [_ Hx].
    now apply negb_true_iff in Hx.
Qed.

Lemma X20_numbering_restarts_at_T001_witness :
  generateTaskNumber overflowStore = "T001".
Proof.
  apply (X20_numbering_restarts_at_T001 overflowStore).
  intros t [<-|[]]. reflexivity.
Defined.

Lemma X21_numbers_consecutive_below_1000_witness :
  let s := initialStore august1 in
  let new := skipn (List.length (tasks s))
               (map Task.taskNumber
                    (tasks (@addTasks enUS (sampleCalls 2) s))) in
  List.length new = List.length (sampleCalls 2)
  /\ (forall i num,
         nth_error new i = Some num ->
         JS.test_T3 num = true
         /\ suffixOf num = Some (nextNumber (tasks s) + Z.of_nat i))
  /\ NoDup new
  /\ (forall num, In num new ->
                  ~ In num (map Task.taskNumber (tasks s))).
Proof.
  apply (@X21_numbers_consecutive_below_1000 enUS (sampleCalls 2)
           (initialStore august1)).
  vm_compute. discriminate.
Defined.

Lemma X22_deleted_sender_is_unknown_witness :
  let s := initialStore august1 in
  let s1 := provider (deleteUser s (ChatMessage.userId longMessage)
                        (mkBrowser s None)) in
  tasks s1 = tasks s
  /\ (forall u, In u (users s1) <->
                In u (users s)
                /\ User.id u <> ChatMessage.userId longMessage)
  /\ forall n,
       In n (emittedBetween s1 (addChatMessage s1 august1 longMessage s1)) ->
       Notification.message n
       = messagePreview "Unknown User" (ChatMessage.message longMessage).
Proof.
  apply (X22_deleted_sender_is_unknown (initialStore august1) None august1
           longMessage task1).
  reflexivity.
Defined.

Example deleted_admin_writes :
  let s := initialStore august1 in
  let s1 := provider (deleteUser s "1" (mkBrowser s None)) in
  map Notification.message
    (emittedBetween s1 (addChatMessage s1 august1 longMessage s1))
  = ["Unknown User: The client has sent the missing statements this mo..."].
Proof. reflexivity. Qed.

(** ** Editing a client *)

Lemma mergeClient_own_form (client : Client.t) :
  Client.contactPerson client <> None ->
  mergeClient client (formUpdates (handleEditClient client)) = client.
Proof.
  destruct client as [i n e p a [cp|] act cr]; intros H;
    [|now contradiction H].
  unfold mergeClient, formUpdates, handleEditClient. cbn.
  unfold JS.orElse. destruct cp; reflexivity.
Qed.

(** Opening the edit dialog on a client and saving the form untouched
    returns the store as it was, provided the client has a contact person
    (possibly empty) and no other client shares its id.  A client without a
    contact person comes back with the empty string for one and is otherwise
    the same. *)
Theorem X23_client_edit_round_trip (s : Store) (client : Client.t) :
  In client (clients s) ->
  NoDup (map Client.id (clients s)) ->
  let s' := handleUpdateClient (Some client) (handleEditClient client) s in
  (Client.contactPerson client <> None -> s' = s)
  /\ (Client.contactPerson client = None ->
      clients s'
      = map (fun c =>
               if (Client.id c =? Client.id client)%string
               then Client.mk (Client.id client) (Client.name client)
                      (Client.email client) (Client.phone client)
                      (Client.address client) (Some "")
                      (Client.isActive client) (Client.createdAt client)
               else c) (clients s)).
Proof.
  intros Hin Hnd s'. subst s'. unfold handleUpdateClient, updateClient.
  assert (forall c, In c (clients s) -> Client.id c = Client.id client ->
                    c = client) as Hsame.
  { intros c Hc E. destruct (in_split _ _ Hin) as [l1 [l2 El]].
    rewrite El in Hnd, Hc. rewrite map_app in Hnd. cbn [map] in Hnd.
    pose proof (NoDup_remove_2 _ _ _ Hnd) as Hout.
    apply in_app_or in Hc. destruct Hc as [Hc|[Hc|Hc]].
    - exfalso. apply Hout, in_or_app. left. rewrite <- E. now apply in_map.
    - now subst.
    - exfalso. apply Hout, in_or_app. right. rewrite <- E.
      now apply in_map. }
  split.
  - intros Hcp. unfold setClients. destruct s as [us ts cs tts ms ns].
    cbn in *. f_equal. apply map_unchanged. intros c Hc.
    destruct (String.eqb_spec (Client.id c) (Client.id client)) as [E|E];
      [|reflexivity].
    rewrite (Hsame c Hc E). now apply mergeClient_own_form.
  - intros Hcp. cbn [clients setClients]. apply map_ext_in. intros c Hc.
    destruct (String.eqb_spec (Client.id c) (Client.id client)) as [E|E];
      [|reflexivity].
    rewrite (Hsame c Hc E). unfold mergeClient, formUpdates, handleEditClient.
    rewrite Hcp. reflexivity.
Qed.

Lemma X23_client_edit_round_trip_witness :
  handleUpdateClient (Some (nth 0 initialClients newClient))
    (handleEditClient (nth 0 initialClients newClient))
    (initialStore august1)
  = initialStore august1.
Proof.
  apply (proj1 (X23_client_edit_round_trip (initialStore august1)
                  (nth 0 initialClients newClient)
                  (or_introl eq_refl)
                  ltac:(repeat constructor; cbn; intuition discriminate))).
  discriminate.
Defined.

(** ** Signing in *)


Example login_names :
  map (fun e => match Auth.user (fst (login "0.4fzyo82mvyr" august1 e "x"
                                        (Auth.mk None false None))) with
                | Some u => (AuthUser.id u, AuthUser.name u, AuthUser.email u)
                | None => ("", "", "")
                end)
      ["jane@ca.com"; ""; "@ca.com"]
  = [("user-4fzyo82", "jane", "jane@ca.com");
     ("user-4fzyo82", "Guest", "guest@demo.com");
     ("user-4fzyo82", "Guest", "@ca.com")].
Proof. reflexivity. Qed.

(** ** The search box *)

Lemma toLowerChar_idempotent (c : ascii) :
  toLowerChar (toLowerChar c) = toLowerChar c.
Proof. destruct c as [[] [] [] [] [] [] [] []]; reflexivity. Qed.

Lemma isSpace_toLowerChar (c : ascii) :
  isSpace (toLowerChar c) = isSpace c.
Proof. destruct c as [[] [] [] [] [] [] [] []]; reflexivity. Qed.

Lemma toLowerCase_idempotent (s : string) :
  toLowerCase (toLowerCase s) = toLowerCase s.
Proof.
  induction s as [|c s IH]; [reflexivity|]. cbn [toLowerCase].
  now rewrite toLowerChar_idempotent, IH.
Qed.

Lemma toLowerCase_trimStart (s : string) :
  toLowerCase (trimStart s) = trimStart (toLowerCase s).
Proof.
  induction s as [|c s IH]; [reflexivity|]. cbn [trimStart toLowerCase].
  rewrite isSpace_toLowerChar. destruct (isSpace c); [exact IH|reflexivity].
Qed.

Lemma toLowerCase_trimEnd (s : string) :
  toLowerCase (trimEnd s) = trimEnd (toLowerCase s).
Proof.
  induction s as [|c s IH]; [reflexivity|]. cbn [trimEnd toLowerCase].
  rewrite <- IH, isSpace_toLowerChar.
  destruct (trimEnd s) as [|d r]; cbn [toLowerCase].
  - destruct (isSpace c); reflexivity.
  - reflexivity.
Qed.

(** The trimmed lower-case search text is its own lower case. *)
Lemma searchLower_lower (searchTerm : string) :
  toLowerCase (trim (toLowerCase searchTerm)) = trim (toLowerCase searchTerm).
Proof.
  unfold trim.
  now rewrite toLowerCase_trimEnd, toLowerCase_trimStart,
    toLowerCase_idempotent.
Qed.

Lemma prefix_toLowerCase (a b : string) :
  String.prefix a b = true ->
  String.prefix (toLowerCase a) (toLowerCase b) = true.
Proof.
  revert b. induction a as [|x a IH]; intros [|y b]; cbn; try reflexivity;
    try discriminate.
  destruct (ascii_dec x y) as [->|Hne]; [|discriminate].
  intros H. destruct (ascii_dec (toLowerChar y) (toLowerChar y));
    [now apply IH|congruence].
Qed.

Lemma includes_toLowerCase (s sub : string) :
  JS.includes s sub = true ->
  JS.includes (toLowerCase s) (toLowerCase sub) = true.
Proof.
  induction s as [|c s IH]; cbn [JS.includes toLowerCase].
  - rewrite !orb_false_r. apply prefix_toLowerCase.
  - intros H. apply orb_true_iff in H. apply orb_true_iff.
    destruct H as [H|H]; [left|right; now apply IH].
    apply (prefix_toLowerCase sub (String c s) H).
Qed.

Lemma prefix_tail (c : ascii) (sub s : string) :
  String.prefix (String c sub) s = true ->
  exists r, s = String c r /\ String.prefix sub r = true.
Proof.
  destruct s as [|d r]; cbn; [discriminate|].
  destruct (ascii_dec c d) as [->|]; [|discriminate].
  intros H. now exists r.
Qed.

(** Where a text occurs, the text without its first character occurs. *)
Lemma includes_without_first (c : ascii) (sub s : string) :
  JS.includes s (String c sub) = true -> JS.includes s sub = true.
Proof.
  induction s as [|d s IH]; cbn [JS.includes].
  - rewrite orb_false_r. intros H. apply prefix_tail in H.
    destruct H as [r [E _]]. discriminate.
  - intros H. apply orb_true_iff in H. apply orb_true_iff. right.
    destruct H as [H|H]; [|now apply IH].
    apply prefix_tail in H. destruct H as [r [[= -> ->] Hp]].
    destruct r as [|e r]; cbn [JS.includes]; now rewrite Hp.
Qed.

Lemma includes_substringFrom1 (s sub : string) :
  JS.includes (JS.substringFrom1 s) sub = true ->
  s <> "" -> JS.includes s sub = true.
Proof.
  destruct s as [|c s]; [congruence|]. cbn [JS.substringFrom1 JS.includes].
  intros H _. rewrite H. apply orb_true_r.
Qed.

(** The search of the task page is a plain search, without regard to case,
    for the trimmed text in the title, the description and the task number:
    the three further tests on the task number never add a task.  An empty
    text, or one of blanks only, matches every task. *)
Theorem X25_search_is_substring_search (searchTerm : string)
  (task : Task.t) :
  let searchLower := trim (toLowerCase searchTerm) in
  matchesSearch searchTerm task
  = ((searchTerm =? "")%string
     || JS.includes (toLowerCase (Task.title task)) searchLower
     || JS.includes (toLowerCase (Task.description task)) searchLower
     || JS.includes (toLowerCase (Task.taskNumber task)) searchLower)
  /\ (searchLower = "" -> matchesSearch searchTerm task = true).
Proof.
  intros searchLower.
  assert (JS.orElse (Task.taskNumber task) "" = Task.taskNumber task) as En
    by (unfold JS.orElse; now destruct (Task.taskNumber task)).
  assert (matchesSearch searchTerm task
          = ((searchTerm =? "")%string
             || JS.includes (toLowerCase (Task.title task)) searchLower
             || JS.includes (toLowerCase (Task.description task)) searchLower
             || JS.includes (toLowerCase (Task.taskNumber task)) searchLower))
    as E.
  { unfold matchesSearch. fold searchLower. rewrite En.
    destruct (JS.includes (toLowerCase (Task.taskNumber task)) searchLower)
      eqn:H3.
    - rewrite !orb_true_r. reflexivity.
    - rewrite andb_false_r, !orb_false_r.
      assert (JS.includes (JS.substringFrom1 (Task.taskNumber task))
                searchLower = false) as H5.
      { destruct (JS.includes (JS.substringFrom1 _) searchLower) eqn:H;
          [|reflexivity].
        destruct (Task.taskNumber task) as [|c r] eqn:Et.
        - cbn in H, H3. congruence.
        - apply includes_substringFrom1 in H; [|discriminate].
          apply includes_toLowerCase in H.
          unfold searchLower in H. rewrite searchLower_lower in H.
          fold searchLower in H. congruence. }
      assert (JS.includes (toLowerCase (Task.taskNumber task))
                ("t" ++ searchLower) = false) as H6.
      { destruct (JS.includes _ ("t" ++ searchLower)) eqn:H; [|reflexivity].
        apply includes_without_first in H. congruence. }
      rewrite H5, H6, !andb_false_r, !orb_false_r. reflexivity. }
  split; [exact E|].
  intros Hempty. rewrite E, Hempty.
  assert (forall s, JS.includes s "" = true) as Hall
    by (intros [|c r]; reflexivity).
  rewrite Hall. now rewrite !orb_true_r.
Qed.

Example search_examples :
  map (fun term => map Task.taskNumber
                     (filter (matchesFilters "all" "all" term) initialTasks))
      ["t002"; "002"; "  AUDIT "; "T9"; " "; "in-progress"]
  = [["T002"]; ["T002"]; ["T002"]; []; ["T001"; "T002"; "T003"]; []].
Proof. reflexivity. Qed.
